(** * Rule-based validation of course registrations

    A shallow embedding of [refactoring_solid.py]: the validation rule
    interface, its three concrete rules ([SksLimitRule], [PrerequisiteRule],
    [JadwalBentrokRule]), the coordinating [RegistrationService] and the
    two sample requests of the demonstration, followed by the properties
    of the rule pipeline.

    Python features and how they are rendered here:
    - dictionaries used as records become records whose fields are
      [option]s ([None] = the key is absent); [d.get(k, dflt)] is
      [default dflt (field d)], [d[k]] raises [KeyError k] on [None];
    - [int] is [Z]; [set] is stdpp's [gset];
    - [print] appends a line to the program's standard output, which is
      the state threaded through every call;
    - an exception aborts the computation and is the result [Raise e]. *)

From stdpp Require Import base option list strings gmap.
From Stdlib Require Import ZArith.

Local Open Scope Z_scope.
Local Open Scope string_scope.
Local Open Scope list_scope.

(** ** Request data *)

(** One entry of ["kursus_terpilih"]. The program reads ["prasyarat"] and
    ["jadwal"] only through [.get], which yields Python's [None] both for a
    missing key and for a key bound to [None]; the two are one [None]. *)
Module Kursus.
Record t := Build {
  nama : option string;
  sks : option Z;
  prasyarat : option string;
  jadwal : option string
}.
End Kursus.

(** The ["mahasiswa"] entry. *)
Module Mahasiswa.
Record t := Build {
  nama : option string;
  max_sks : option Z;
  riwayat_kursus : option (list string)
}.

(** The literal [{}] used as the default of [data.get("mahasiswa", {})]. *)
Definition empty : t :=
  {| nama := None; max_sks := None; riwayat_kursus := None |}.
End Mahasiswa.

(** The [data] dictionary handed to every rule. *)
Module Data.
Record t := Build {
  mahasiswa : option Mahasiswa.t;
  kursus_terpilih : option (list Kursus.t)
}.
End Data.

(** ** Effects: standard output and exceptions *)

(** The lines the program can print, one constructor per [print] call of
    the source, carrying the values interpolated into its f-string. *)
Inductive line :=
  (* "--- Memulai Validasi Registrasi untuk {nama} ---" *)
  | MemulaiValidasi (nama : string)
  (* "GAGAL VALIDASI SKS: Total SKS {sks_terpilih} melebihi batas {batas_sks}." *)
  | GagalValidasiSks (sks_terpilih batas_sks : Z)
  (* "Lolos Validasi SKS." *)
  | LolosValidasiSks
  (* "GAGAL VALIDASI PRASYARAT: Kursus '{nama}' memerlukan '{prasyarat}'
     yang belum lulus." *)
  | GagalValidasiPrasyarat (nama : string) (prasyarat : option string)
  (* "Lolos Validasi Prasyarat." *)
  | LolosValidasiPrasyarat
  (* "GAGAL VALIDASI JADWAL: Jadwal {waktu} bentrok." *)
  | GagalValidasiJadwal (waktu : option string)
  (* "Lolos Validasi Jadwal Bentrok." *)
  | LolosValidasiJadwal
  (* "REGISTRASI GAGAL karena aturan {rule_class} tidak terpenuhi." *)
  | RegistrasiGagal (rule_class : string)
  (* "REGISTRASI BERHASIL: Semua aturan validasi terpenuhi." *)
  | RegistrasiBerhasil.

Inductive exn :=
  | KeyError (key : string).

Inductive result (A : Type) :=
  | Ok (a : A)
  | Raise (e : exn).
Arguments Ok {A} a.
Arguments Raise {A} e.

(** Standard output, oldest line first. *)
Definition World := list line.

(** A computation reads and extends the output and ends with a value or an
    exception; what was printed before an exception stays printed. *)
Definition M (A : Type) : Type := World -> result A * World.

Definition ret {A} (a : A) : M A := fun w => (Ok a, w).

Definition bind {A B} (m : M A) (k : A -> M B) : M B :=
  fun w =>
    match m w with
    | (Ok a, w') => k a w'
    | (Raise e, w') => (Raise e, w')
    end.

Definition raise {A} (e : exn) : M A := fun w => (Raise e, w).

Definition print (l : line) : M unit := fun w => (Ok tt, w ++ [l]).

(** stdpp's monad notations: [x ← m; k] and [m;; k]. *)
#[global] Instance M_ret : MRet M := @ret.
#[global] Instance M_bind : MBind M := fun A B k m => bind m k.

(** [d[key]] on a field of a dictionary. *)
Definition getitem {A} (key : string) (field : option A) : M A :=
  match field with
  | Some v => ret v
  | None => raise (KeyError key)
  end.

(** Python truthiness of the value of [kursus.get("prasyarat")]: [None] and
    the empty string are false, every other string is true. *)
Definition truthy (v : option string) : bool :=
  match v with
  | None => false
  | Some s => negb (String.eqb s EmptyString)
  end.

(** [v not in s] for the value of [kursus.get("prasyarat")] and a set of
    strings: Python's [None] is an element of no such set. *)
Definition not_in (v : option string) (s : gset string) : bool :=
  match v with
  | None => true
  | Some p => negb (bool_decide (p ∈ s))
  end.

(** ** The rule interface *)

(** [IValidationRule]: an object with a [validate] method; [class_name] is
    what [rule.__class__.__name__] evaluates to. *)
Record IValidationRule := {
  class_name : string;
  validate : Data.t -> M bool
}.

(** ** SksLimitRule *)

Module SksLimitRule.

(** [sum(k['sks'] for k in kursus_terpilih)]: the running total starts at
    0 and the generator is consumed in order, so the first course without
    ["sks"] raises. *)
Fixpoint sum_sks (acc : Z) (kursus_terpilih : list Kursus.t) : M Z :=
  match kursus_terpilih with
  | [] => ret acc
  | k :: rest =>
      v ← getitem "sks" (Kursus.sks k);
      sum_sks (acc + v) rest
  end.

Definition validate (data : Data.t) : M bool :=
  let mahasiswa := default Mahasiswa.empty (Data.mahasiswa data) in
  let kursus_terpilih := default [] (Data.kursus_terpilih data) in
  sks_terpilih ← sum_sks 0 kursus_terpilih;
  let batas_sks := default 24 (Mahasiswa.max_sks mahasiswa) in
  if sks_terpilih >? batas_sks then
    print (GagalValidasiSks sks_terpilih batas_sks);;
    ret false
  else
    print LolosValidasiSks;;
    ret true.

Definition new : IValidationRule :=
  Build_IValidationRule "SksLimitRule" validate.

End SksLimitRule.

(** ** PrerequisiteRule *)

Module PrerequisiteRule.

(** The [for] loop. [Some b] is a [return b] from inside the loop, [None]
    is the loop running to its end. The f-string of the failure message
    evaluates [kursus['nama']] before anything is printed. *)
Fixpoint loop (riwayat_lulus : gset string) (kursus_terpilih : list Kursus.t)
  : M (option bool) :=
  match kursus_terpilih with
  | [] => ret None
  | kursus :: rest =>
      let prasyarat := Kursus.prasyarat kursus in
      if truthy prasyarat && not_in prasyarat riwayat_lulus then
        nama ← getitem "nama" (Kursus.nama kursus);
        print (GagalValidasiPrasyarat nama prasyarat);;
        ret (Some false)
      else loop riwayat_lulus rest
  end.

Definition validate (data : Data.t) : M bool :=
  let mahasiswa := default Mahasiswa.empty (Data.mahasiswa data) in
  let kursus_terpilih := default [] (Data.kursus_terpilih data) in
  let riwayat_lulus : gset string :=
    list_to_set (default [] (Mahasiswa.riwayat_kursus mahasiswa)) in
  r ← loop riwayat_lulus kursus_terpilih;
  match r with
  | Some b => ret b
  | None =>
      print LolosValidasiPrasyarat;;
      ret true
  end.

Definition new : IValidationRule :=
  Build_IValidationRule "PrerequisiteRule" validate.

End PrerequisiteRule.

(** ** RegistrationService *)

Module RegistrationService.

Record t := Build {
  rules : list IValidationRule
}.

(** [__init__]: the injected list is stored as it is. *)
Definition init (validation_rules : list IValidationRule) : t :=
  {| rules := validation_rules |}.

(** The [for rule in self.rules] loop, with the same reading of the
    result as in [PrerequisiteRule.loop]. *)
Fixpoint loop (rules : list IValidationRule) (data : Data.t)
  : M (option bool) :=
  match rules with
  | [] => ret None
  | rule :: rest =>
      ok ← validate rule data;
      if negb ok then
        print (RegistrasiGagal (class_name rule));;
        ret (Some false)
      else loop rest data
  end.

(** The header line evaluates [data['mahasiswa']['nama']] first. *)
Definition register_student (self : t) (data : Data.t) : M bool :=
  mahasiswa ← getitem "mahasiswa" (Data.mahasiswa data);
  nama ← getitem "nama" (Mahasiswa.nama mahasiswa);
  print (MemulaiValidasi nama);;
  r ← loop (rules self) data;
  match r with
  | Some b => ret b
  | None =>
      print RegistrasiBerhasil;;
      ret true
  end.

End RegistrationService.

(** ** JadwalBentrokRule *)

Module JadwalBentrokRule.

(** The loop over the selected courses; [jadwal] is the set of time
    slots seen so far, and a course without ["jadwal"] contributes
    Python's [None] to it. *)
Fixpoint loop (jadwal : gset (option string)) (kursus_terpilih : list Kursus.t)
  : M (option bool) :=
  match kursus_terpilih with
  | [] => ret None
  | kursus :: rest =>
      let waktu := Kursus.jadwal kursus in
      if bool_decide (waktu ∈ jadwal) then
        print (GagalValidasiJadwal waktu);;
        ret (Some false)
      else loop (jadwal ∪ {[waktu]}) rest
  end.

Definition validate (data : Data.t) : M bool :=
  let kursus_terpilih := default [] (Data.kursus_terpilih data) in
  r ← loop ∅ kursus_terpilih;
  match r with
  | Some b => ret b
  | None =>
      print LolosValidasiJadwal;;
      ret true
  end.

Definition new : IValidationRule :=
  Build_IValidationRule "JadwalBentrokRule" validate.

End JadwalBentrokRule.

(** ** The demonstration data *)

Definition data_mahasiswa_valid : Data.t :=
  {| Data.mahasiswa := Some
       {| Mahasiswa.nama := Some "Budi";
          Mahasiswa.max_sks := Some 24;
          Mahasiswa.riwayat_kursus := Some ["DASPRO"; "ALGORITMA"] |};
     Data.kursus_terpilih := Some
       [ {| Kursus.nama := Some "STRUKTUR DATA"; Kursus.sks := Some 4;
            Kursus.prasyarat := Some "ALGORITMA";
            Kursus.jadwal := Some "SENIN 10:00" |};
         {| Kursus.nama := Some "JARINGAN KOMPUTER"; Kursus.sks := Some 4;
            Kursus.prasyarat := None;
            Kursus.jadwal := Some "SELASA 08:00" |} ] |}.

Definition aturan_lengkap : list IValidationRule :=
  [ SksLimitRule.new; PrerequisiteRule.new; JadwalBentrokRule.new ].

Definition registration_service : RegistrationService.t :=
  RegistrationService.init aturan_lengkap.

Definition data_mahasiswa_gagal_sks : Data.t :=
  {| Data.mahasiswa := Some
       {| Mahasiswa.nama := Some "Andi";
          Mahasiswa.max_sks := Some 8;
          Mahasiswa.riwayat_kursus := Some ["DASPRO"; "ALGORITMA"] |};
     Data.kursus_terpilih := Some
       [ {| Kursus.nama := Some "STRUKTUR DATA"; Kursus.sks := Some 4;
            Kursus.prasyarat := Some "ALGORITMA";
            Kursus.jadwal := Some "SENIN 10:00" |};
         {| Kursus.nama := Some "JARINGAN KOMPUTER"; Kursus.sks := Some 4;
            Kursus.prasyarat := None;
            Kursus.jadwal := Some "SELASA 08:00" |};
         {| Kursus.nama := Some "BASIS DATA"; Kursus.sks := Some 4;
            Kursus.prasyarat := None;
            Kursus.jadwal := Some "RABU 13:00" |} ] |}.

(** ** Further requests, used to exercise the properties *)

Definition buat_kursus (nama : string) (sks : Z) (prasyarat jadwal : option string)
  : Kursus.t :=
  {| Kursus.nama := Some nama; Kursus.sks := Some sks;
     Kursus.prasyarat := prasyarat; Kursus.jadwal := jadwal |}.

Definition buat_mahasiswa (nama : string) (max_sks : Z) (riwayat_kursus : list string)
  : Mahasiswa.t :=
  {| Mahasiswa.nama := Some nama; Mahasiswa.max_sks := Some max_sks;
     Mahasiswa.riwayat_kursus := Some riwayat_kursus |}.

(** "ALGORITMA" has not been passed yet. *)
Definition data_prasyarat_belum_lulus : Data.t :=
  {| Data.mahasiswa := Some (buat_mahasiswa "Citra" 24 ["DASPRO"]);
     Data.kursus_terpilih := Some
       [ buat_kursus "JARINGAN KOMPUTER" 4 None (Some "SELASA 08:00");
         buat_kursus "STRUKTUR DATA" 4 (Some "ALGORITMA") (Some "SENIN 10:00");
         buat_kursus "BASIS DATA" 4 (Some "STRUKTUR DATA") (Some "RABU 13:00") ] |}.

(** A course whose ["prasyarat"] is the empty string. *)
Definition data_prasyarat_kosong : Data.t :=
  {| Data.mahasiswa := Some (buat_mahasiswa "Dewi" 24 ["DASPRO"]);
     Data.kursus_terpilih := Some
       [ buat_kursus "STRUKTUR DATA" 4 (Some EmptyString) (Some "SENIN 10:00") ] |}.

(** The first and the third course meet at the same time. *)
Definition data_jadwal_bentrok : Data.t :=
  {| Data.mahasiswa := Some (buat_mahasiswa "Eko" 24 ["DASPRO"; "ALGORITMA"]);
     Data.kursus_terpilih := Some
       [ buat_kursus "STRUKTUR DATA" 4 (Some "ALGORITMA") (Some "SENIN 10:00");
         buat_kursus "JARINGAN KOMPUTER" 4 None (Some "SELASA 08:00");
         buat_kursus "BASIS DATA" 4 None (Some "SENIN 10:00") ] |}.

(** Two courses carry no ["jadwal"] key. *)
Definition data_tanpa_jadwal : Data.t :=
  {| Data.mahasiswa := Some (buat_mahasiswa "Fajar" 24 []);
     Data.kursus_terpilih := Some
       [ buat_kursus "STRUKTUR DATA" 4 None None;
         buat_kursus "JARINGAN KOMPUTER" 4 None (Some "SELASA 08:00");
         buat_kursus "BASIS DATA" 4 None None ] |}.

(** No ["mahasiswa"] key at all. *)
Definition data_tanpa_mahasiswa : Data.t :=
  {| Data.mahasiswa := None;
     Data.kursus_terpilih := Some
       [ buat_kursus "STRUKTUR DATA" 4 None (Some "SENIN 10:00") ] |}.

(** ** Vocabulary of the properties *)

(** The courses a rule iterates over, the student's completed courses and
    the credit limit in force, as every rule computes them. *)
Definition selections (data : Data.t) : list Kursus.t :=
  default [] (Data.kursus_terpilih data).

Definition completed_courses (data : Data.t) : list string :=
  default [] (Mahasiswa.riwayat_kursus (default Mahasiswa.empty (Data.mahasiswa data))).

Definition max_credit_units (data : Data.t) : Z :=
  default 24 (Mahasiswa.max_sks (default Mahasiswa.empty (Data.mahasiswa data))).

(** The student name of a request, when it has one. *)
Definition student_name (data : Data.t) : option string :=
  Data.mahasiswa data ≫= Mahasiswa.nama.

(** Sum of the credit units of a selection, as a fold from the right; it
    is used on selections whose courses all carry the field (a course
    without it would count 0). *)
Definition total_credit_units (ks : list Kursus.t) : Z :=
  foldr (fun k acc => default 0 (Kursus.sks k) + acc) 0 ks.

Definition has_credit_units (k : Kursus.t) : Prop := is_Some (Kursus.sks k).
Definition has_name (k : Kursus.t) : Prop := is_Some (Kursus.nama k).

(** A prerequisite that is merely non-null must have been completed. *)
Definition nonnull_prerequisite_met (completed : list string) (k : Kursus.t) : Prop :=
  match Kursus.prasyarat k with
  | Some p => p ∈ completed
  | None => True
  end.

(** A prerequisite that is non-null and not the empty string must have
    been completed. *)
Definition prerequisite_met (completed : list string) (k : Kursus.t) : Prop :=
  match Kursus.prasyarat k with
  | Some p => p = EmptyString ∨ p ∈ completed
  | None => True
  end.

(** The time slots of a selection, in selection order. *)
Definition time_slots (ks : list Kursus.t) : list (option string) :=
  Kursus.jadwal <$> ks.

(** Well-formed requests: student record and selection list present,
    every selected course with its credit units and its name. *)
Definition well_formed (data : Data.t) : Prop :=
  is_Some (Data.mahasiswa data) ∧
  is_Some (Data.kursus_terpilih data) ∧
  Forall (fun k => has_credit_units k ∧ has_name k) (selections data).

#[global] Instance well_formed_dec data : Decision (well_formed data).
Proof. unfold well_formed, has_credit_units, has_name. apply _. Defined.

(** All rules of a list answer [True] when run one after the other from
    output [w], leaving output [w']. *)
Inductive all_pass (data : Data.t) : list IValidationRule -> World -> World -> Prop :=
  | all_pass_nil w : all_pass data [] w w
  | all_pass_cons rule rest w w1 w2 :
      validate rule data w = (Ok true, w1) ->
      all_pass data rest w1 w2 ->
      all_pass data (rule :: rest) w w2.

(** A computation that only appends to the output: its result and the
    lines it prints do not depend on what was printed before. *)
Definition writer {A} (m : M A) : Prop :=
  ∃ r out, ∀ w, m w = (r, w ++ out).

(** A rule whose verdict on a request does not depend on the state it is
    called in. *)
Definition stateless (rule : IValidationRule) : Prop :=
  ∀ data w w', (validate rule data w).1 = (validate rule data w').1.

(** ** The script and further vocabulary *)

(** The module-level statements of the demonstration: one service, two
    calls, their results discarded. *)
Definition main : M unit :=
  RegistrationService.register_student registration_service data_mahasiswa_valid;;
  RegistrationService.register_student registration_service data_mahasiswa_gagal_sks;;
  ret tt.

(** The request [data] with its selection replaced by [ks]. *)
Definition with_selection (data : Data.t) (ks : list Kursus.t) : Data.t :=
  {| Data.mahasiswa := Data.mahasiswa data; Data.kursus_terpilih := Some ks |}.

(** Credit units present and not negative. *)
Definition credit_units_nonneg (k : Kursus.t) : Prop :=
  ∃ v, Kursus.sks k = Some v ∧ 0 <= v.

(** The second course has no ["sks"] key. *)
Definition data_tanpa_sks : Data.t :=
  {| Data.mahasiswa := Some (buat_mahasiswa "Gita" 24 []);
     Data.kursus_terpilih := Some
       [ buat_kursus "JARINGAN KOMPUTER" 4 None (Some "SELASA 08:00");
         {| Kursus.nama := Some "BASIS DATA"; Kursus.sks := None;
            Kursus.prasyarat := None; Kursus.jadwal := Some "RABU 13:00" |} ] |}.

(** A negative credit limit and nothing selected. *)
Definition data_batas_negatif : Data.t :=
  {| Data.mahasiswa := Some (buat_mahasiswa "Indra" (-1) []);
     Data.kursus_terpilih := Some [] |}.

(** The second course has an unmet prerequisite and no ["nama"] key. *)
Definition data_tanpa_nama : Data.t :=
  {| Data.mahasiswa := Some (buat_mahasiswa "Hadi" 24 []);
     Data.kursus_terpilih := Some
       [ buat_kursus "JARINGAN KOMPUTER" 4 None (Some "SELASA 08:00");
         {| Kursus.nama := None; Kursus.sks := Some 4;
            Kursus.prasyarat := Some "DASPRO"; Kursus.jadwal := Some "RABU 13:00" |} ] |}.

(** ** Sanity checks on the demonstration *)

Example scenario_a :
  RegistrationService.register_student registration_service data_mahasiswa_valid []
  = (Ok true, [MemulaiValidasi "Budi"; LolosValidasiSks; LolosValidasiPrasyarat;
               LolosValidasiJadwal; RegistrasiBerhasil]).
Proof. vm_compute. reflexivity. Qed.

Example scenario_b :
  RegistrationService.register_student registration_service
    data_mahasiswa_gagal_sks []
  = (Ok false, [MemulaiValidasi "Andi"; GagalValidasiSks 12 8;
                RegistrasiGagal "SksLimitRule"]).
Proof. vm_compute. reflexivity. Qed.

Example scenario_c :
  RegistrationService.register_student registration_service data_jadwal_bentrok []
  = (Ok false, [MemulaiValidasi "Eko"; LolosValidasiSks; LolosValidasiPrasyarat;
                GagalValidasiJadwal (Some "SENIN 10:00");
                RegistrasiGagal "JadwalBentrokRule"]).
Proof. vm_compute. reflexivity. Qed.

(** A course without ["sks"] makes [sum] raise; a course with an unmet
    prerequisite and without ["nama"] makes the failure message raise. *)
Example sks_key_error :
  SksLimitRule.validate
    {| Data.mahasiswa := None;
       Data.kursus_terpilih := Some
         [ {| Kursus.nama := Some "BASIS DATA"; Kursus.sks := None;
              Kursus.prasyarat := None; Kursus.jadwal := None |} ] |} []
  = (Raise (KeyError "sks"), []).
Proof. vm_compute. reflexivity. Qed.

Example nama_key_error :
  PrerequisiteRule.validate
    {| Data.mahasiswa := None;
       Data.kursus_terpilih := Some
         [ {| Kursus.nama := None; Kursus.sks := Some 4;
              Kursus.prasyarat := Some "DASPRO"; Kursus.jadwal := None |} ] |} []
  = (Raise (KeyError "nama"), []).
Proof. vm_compute. reflexivity. Qed.

Example main_output :
  main []
  = (Ok tt,
     [MemulaiValidasi "Budi"; LolosValidasiSks; LolosValidasiPrasyarat;
      LolosValidasiJadwal; RegistrasiBerhasil;
      MemulaiValidasi "Andi"; GagalValidasiSks 12 8;
      RegistrasiGagal "SksLimitRule"]).
Proof. vm_compute. reflexivity. Qed.

(** ** The monad *)

Ltac unfold_m :=
  unfold mbind, M_bind, bind, mret, M_ret, ret, raise, print, getitem in *.

Lemma bind_ok {A B} (m : M A) (k : A -> M B) w a w' :
  m w = (Ok a, w') -> (m ≫= k) w = k a w'.
Proof. intros H. unfold_m. by rewrite H. Qed.

Lemma bind_raise {A B} (m : M A) (k : A -> M B) w e w' :
  m w = (Raise e, w') -> (m ≫= k) w = (Raise e, w').
Proof. intros H. unfold_m. by rewrite H. Qed.

Lemma writer_ret {A} (a : A) : writer (ret a).
Proof. exists (Ok a), []. intros w. unfold ret. by rewrite app_nil_r. Qed.

Lemma writer_raise {A} e : writer (@raise A e).
Proof. exists (Raise e), []. intros w. unfold raise. by rewrite app_nil_r. Qed.

Lemma writer_print l : writer (print l).
Proof. by exists (Ok tt), [l]. Qed.

Lemma writer_getitem {A} key (field : option A) : writer (getitem key field).
Proof. destruct field; [apply writer_ret | apply writer_raise]. Qed.

Lemma writer_bind {A B} (m : M A) (k : A -> M B) :
  writer m -> (∀ a, writer (k a)) -> writer (m ≫= k).
Proof.
  intros (r & out & Hm) Hk. destruct r as [a|e].
  - destruct (Hk a) as (r' & out' & Hka).
    exists r', (out ++ out'). intros w.
    rewrite (bind_ok _ _ _ _ _ (Hm w)), Hka. by rewrite app_assoc.
  - exists (Raise e), out. intros w. by rewrite (bind_raise _ _ _ _ _ (Hm w)).
Qed.

Lemma writer_stateless name (f : Data.t -> M bool) :
  (∀ data, writer (f data)) -> stateless (Build_IValidationRule name f).
Proof.
  intros Hf data w w'. destruct (Hf data) as (r & out & H). simpl.
  by rewrite (H w), (H w').
Qed.

Create HintDb writer.
#[local] Hint Resolve writer_ret writer_raise writer_print writer_getitem : writer.

(** ** SksLimitRule *)

Lemma sum_sks_total acc ks w :
  Forall has_credit_units ks ->
  SksLimitRule.sum_sks acc ks w = (Ok (acc + total_credit_units ks), w).
Proof.
  intros Hks. revert acc. induction Hks as [|k ks [v Hv] _ IH]; intros acc; simpl.
  - unfold ret. by rewrite Z.add_0_r.
  - rewrite Hv. unfold_m. simpl. rewrite IH. by rewrite Z.add_assoc.
Qed.

Lemma sum_sks_writer acc ks : writer (SksLimitRule.sum_sks acc ks).
Proof.
  revert acc. induction ks as [|k ks IH]; intros acc; simpl; auto with writer.
  apply writer_bind; auto with writer.
Qed.

Lemma SksLimitRule_writer data : writer (SksLimitRule.validate data).
Proof.
  unfold SksLimitRule.validate. apply writer_bind; [apply sum_sks_writer|].
  intros total. case (_ >? _); apply writer_bind; auto with writer.
Qed.

Lemma SksLimitRule_run data w :
  Forall has_credit_units (selections data) ->
  SksLimitRule.validate data w =
    if total_credit_units (selections data) >? max_credit_units data
    then (Ok false, w ++ [GagalValidasiSks (total_credit_units (selections data))
                                            (max_credit_units data)])
    else (Ok true, w ++ [LolosValidasiSks]).
Proof.
  intros Hks. unfold SksLimitRule.validate.
  rewrite (bind_ok _ _ _ _ _ (sum_sks_total 0 _ w Hks)). rewrite Z.add_0_l.
  fold (selections data). fold (max_credit_units data).
  by case (_ >? _).
Qed.

(** ** PrerequisiteRule *)

Lemma unmet_test completed k :
  truthy (Kursus.prasyarat k)
    && not_in (Kursus.prasyarat k) (list_to_set completed) = false
  <-> prerequisite_met completed k.
Proof.
  unfold prerequisite_met, not_in, truthy.
  destruct (Kursus.prasyarat k) as [p|]; simpl; [|done].
  rewrite andb_false_iff, !negb_false_iff, String.eqb_eq, bool_decide_eq_true.
  by rewrite elem_of_list_to_set.
Qed.

Lemma prereq_loop_pass completed ks w :
  Forall (prerequisite_met completed) ks ->
  PrerequisiteRule.loop (list_to_set completed) ks w = (Ok None, w).
Proof.
  induction 1 as [|k ks Hk _ IH]; simpl; [done|].
  apply unmet_test in Hk. by rewrite Hk.
Qed.

Lemma prereq_loop_first_unmet completed pre k post w :
  Forall (prerequisite_met completed) pre ->
  ¬ prerequisite_met completed k ->
  PrerequisiteRule.loop (list_to_set completed) (pre ++ k :: post) w =
    match Kursus.nama k with
    | Some nama =>
        (Ok (Some false), w ++ [GagalValidasiPrasyarat nama (Kursus.prasyarat k)])
    | None => (Raise (KeyError "nama"), w)
    end.
Proof.
  intros Hpre Hk. induction Hpre as [|k' pre Hk' _ IH]; simpl.
  - rewrite <- unmet_test, not_false_iff_true in Hk. rewrite Hk.
    by destruct (Kursus.nama k).
  - apply unmet_test in Hk'. by rewrite Hk'.
Qed.

Lemma prereq_loop_completes completed ks w w' :
  PrerequisiteRule.loop (list_to_set completed) ks w = (Ok None, w') ->
  Forall (prerequisite_met completed) ks.
Proof.
  induction ks as [|k ks IH]; simpl; [done|].
  destruct (truthy _ && _) eqn:Hk.
  - destruct (Kursus.nama k); unfold_m; simpl; discriminate.
  - intros H. constructor; [by apply unmet_test | by apply IH].
Qed.

Lemma prereq_loop_writer lulus ks : writer (PrerequisiteRule.loop lulus ks).
Proof.
  induction ks as [|k ks IH]; simpl; auto with writer.
  case (_ && _); [|done].
  apply writer_bind; auto with writer. intros nama.
  apply writer_bind; auto with writer.
Qed.

Lemma PrerequisiteRule_writer data : writer (PrerequisiteRule.validate data).
Proof.
  unfold PrerequisiteRule.validate. apply writer_bind; [apply prereq_loop_writer|].
  intros [b|]; auto with writer. apply writer_bind; auto with writer.
Qed.

Lemma PrerequisiteRule_unfold data w :
  PrerequisiteRule.validate data w =
    match PrerequisiteRule.loop (list_to_set (completed_courses data))
            (selections data) w with
    | (Ok (Some b), w') => (Ok b, w')
    | (Ok None, w') => (Ok true, w' ++ [LolosValidasiPrasyarat])
    | (Raise e, w') => (Raise e, w')
    end.
Proof.
  unfold PrerequisiteRule.validate, completed_courses, selections. unfold_m.
  destruct (PrerequisiteRule.loop _ _ w) as [[[b|]|e] w']; done.
Qed.

(** ** JadwalBentrokRule *)

Lemma jadwal_loop_pass seen ks w :
  NoDup (time_slots ks) ->
  (∀ s, s ∈ time_slots ks -> s ∉ seen) ->
  JadwalBentrokRule.loop seen ks w = (Ok None, w).
Proof.
  revert seen. induction ks as [|k ks IH]; intros seen Hnd Hseen; simpl; [done|].
  apply NoDup_cons in Hnd as [Hk Hnd].
  rewrite bool_decide_eq_false_2 by (apply Hseen; left).
  apply IH; [done|]. intros s Hs. rewrite elem_of_union, elem_of_singleton.
  intros [Hin | ->]; [|done]. revert Hin. apply Hseen. by right.
Qed.

Lemma jadwal_loop_first_duplicate seen pre k post w :
  NoDup (time_slots pre) ->
  (∀ s, s ∈ time_slots pre -> s ∉ seen) ->
  Kursus.jadwal k ∈ seen ∨ Kursus.jadwal k ∈ time_slots pre ->
  JadwalBentrokRule.loop seen (pre ++ k :: post) w =
    (Ok (Some false), w ++ [GagalValidasiJadwal (Kursus.jadwal k)]).
Proof.
  revert seen. induction pre as [|k' pre IH]; intros seen Hnd Hseen Hk; simpl.
  - destruct Hk as [Hk | Hk]; [|by apply elem_of_nil in Hk].
    by rewrite bool_decide_eq_true_2.
  - apply NoDup_cons in Hnd as [Hk' Hnd].
    rewrite bool_decide_eq_false_2 by (apply Hseen; left).
    apply IH; [done| |].
    + intros s Hs. rewrite elem_of_union, elem_of_singleton.
      intros [Hin | ->]; [|done]. revert Hin. apply Hseen. by right.
    + rewrite elem_of_union, elem_of_singleton.
      destruct Hk as [Hk | Hk]; [by left; left|].
      apply elem_of_cons in Hk as [-> | Hk]; [by left; right | by right].
Qed.

Lemma jadwal_loop_completes seen ks w w' :
  JadwalBentrokRule.loop seen ks w = (Ok None, w') ->
  NoDup (time_slots ks) ∧ ∀ s, s ∈ time_slots ks -> s ∉ seen.
Proof.
  revert seen. induction ks as [|k ks IH]; intros seen; simpl.
  - intros _. split; [constructor | by intros s Hs%elem_of_nil].
  - case_bool_decide as Hk; [unfold_m; simpl; discriminate|].
    intros [Hnd Hseen]%IH. split.
    + constructor; [|done]. intros Hin. apply (Hseen _ Hin).
      apply elem_of_union. right. by apply elem_of_singleton.
    + intros s [-> | Hs]%elem_of_cons; [done|].
      intros Hin. apply (Hseen _ Hs). apply elem_of_union. by left.
Qed.

Lemma jadwal_loop_never_raises seen ks w :
  ∃ r w', JadwalBentrokRule.loop seen ks w = (Ok r, w').
Proof.
  revert seen. induction ks as [|k ks IH]; intros seen; simpl; [by eexists _, _|].
  case_bool_decide; [by eexists _, _ | apply IH].
Qed.

Lemma jadwal_loop_writer seen ks : writer (JadwalBentrokRule.loop seen ks).
Proof.
  revert seen. induction ks as [|k ks IH]; intros seen; simpl; auto with writer.
  case_bool_decide; [|done]. apply writer_bind; auto with writer.
Qed.

Lemma JadwalBentrokRule_writer data : writer (JadwalBentrokRule.validate data).
Proof.
  unfold JadwalBentrokRule.validate. apply writer_bind; [apply jadwal_loop_writer|].
  intros [b|]; auto with writer. apply writer_bind; auto with writer.
Qed.

Lemma JadwalBentrokRule_unfold data w :
  JadwalBentrokRule.validate data w =
    match JadwalBentrokRule.loop ∅ (selections data) w with
    | (Ok (Some b), w') => (Ok b, w')
    | (Ok None, w') => (Ok true, w' ++ [LolosValidasiJadwal])
    | (Raise e, w') => (Raise e, w')
    end.
Proof.
  unfold JadwalBentrokRule.validate, selections. unfold_m.
  destruct (JadwalBentrokRule.loop _ _ w) as [[[b|]|e] w']; done.
Qed.

(** ** RegistrationService *)

Lemma register_student_unfold rules data nama w :
  student_name data = Some nama ->
  RegistrationService.register_student (RegistrationService.init rules) data w =
    match RegistrationService.loop rules data (w ++ [MemulaiValidasi nama]) with
    | (Ok (Some b), w') => (Ok b, w')
    | (Ok None, w') => (Ok true, w' ++ [RegistrasiBerhasil])
    | (Raise e, w') => (Raise e, w')
    end.
Proof.
  unfold student_name, RegistrationService.register_student.
  destruct (Data.mahasiswa data) as [m|]; simpl; [|done].
  intros Hnama. unfold_m. simpl. rewrite Hnama. simpl.
  destruct (RegistrationService.loop _ _ _) as [[[b|]|e] w']; done.
Qed.

Lemma service_loop_cons rule rest data w :
  RegistrationService.loop (rule :: rest) data w =
    match validate rule data w with
    | (Ok true, w') => RegistrationService.loop rest data w'
    | (Ok false, w') => (Ok (Some false), w' ++ [RegistrasiGagal (class_name rule)])
    | (Raise e, w') => (Raise e, w')
    end.
Proof.
  simpl. unfold_m. destruct (validate rule data w) as [[[|]|e] w']; done.
Qed.

Lemma service_loop_pass data rules w w' :
  all_pass data rules w w' ->
  RegistrationService.loop rules data w = (Ok None, w').
Proof.
  induction 1 as [|rule rest w w1 w2 Hrule _ IH]; [done|].
  by rewrite service_loop_cons, Hrule.
Qed.

Lemma service_loop_completes data rules w w' :
  RegistrationService.loop rules data w = (Ok None, w') ->
  all_pass data rules w w'.
Proof.
  revert w. induction rules as [|rule rest IH]; intros w.
  - simpl. unfold ret. intros [= ->]. constructor.
  - rewrite service_loop_cons.
    destruct (validate rule data w) as [[[|]|e] w1] eqn:Hrule; try discriminate.
    intros H. econstructor; [exact Hrule | by apply IH].
Qed.

Lemma service_loop_returns_false data rules w b w' :
  RegistrationService.loop rules data w = (Ok (Some b), w') -> b = false.
Proof.
  revert w. induction rules as [|rule rest IH]; intros w.
  - simpl. unfold ret. discriminate.
  - rewrite service_loop_cons.
    destruct (validate rule data w) as [[[|]|e] w1]; [apply IH| |discriminate].
    by intros [= <- _].
Qed.

Lemma service_loop_first_false data pre rule post w w1 w2 :
  all_pass data pre w w1 ->
  validate rule data w1 = (Ok false, w2) ->
  RegistrationService.loop (pre ++ rule :: post) data w =
    (Ok (Some false), w2 ++ [RegistrasiGagal (class_name rule)]).
Proof.
  intros Hpre Hrule. induction Hpre as [|r rest w w' w1 Hr _ IH]; simpl app.
  - by rewrite service_loop_cons, Hrule.
  - rewrite service_loop_cons, Hr. by apply IH.
Qed.

Lemma service_loop_stateless data rules w w' :
  Forall stateless rules ->
  (RegistrationService.loop rules data w).1
  = (RegistrationService.loop rules data w').1.
Proof.
  intros Hrules. revert w w'.
  induction Hrules as [|rule rest Hrule _ IH]; intros w w'; [done|].
  rewrite !service_loop_cons. specialize (Hrule data w w').
  destruct (validate rule data w) as [[[|]|e] w1],
           (validate rule data w') as [[[|]|e'] w1']; simpl in Hrule |- *;
    first [discriminate | apply IH | congruence].
Qed.

Lemma all_pass_stateless data rules w :
  Forall stateless rules ->
  (∃ w', all_pass data rules w w')
  <-> Forall (fun rule => ∀ w0, (validate rule data w0).1 = Ok true) rules.
Proof.
  intros Hrules. revert w.
  induction Hrules as [|rule rest Hrule _ IH]; intros w.
  - split; [constructor|]. intros _. exists w. constructor.
  - split.
    + intros (w' & Hpass). inversion Hpass as [|? ? ? w1 ? Hr Hrest]; subst.
      constructor.
      * intros w0. by rewrite (Hrule data w0 w), Hr.
      * apply (IH w1). by exists w'.
    + intros [Hr Hrest]%Forall_cons. specialize (Hr w).
      destruct (validate rule data w) as [r w1] eqn:Hrun. simpl in Hr. subst r.
      apply (IH w1) in Hrest as (w' & Hrest). exists w'. by econstructor.
Qed.

Lemma concrete_rules_stateless : Forall stateless aturan_lengkap.
Proof.
  repeat constructor; apply writer_stateless.
  - apply SksLimitRule_writer.
  - apply PrerequisiteRule_writer.
  - apply JadwalBentrokRule_writer.
Qed.

Lemma register_student_stateless rules data w w' :
  Forall stateless rules ->
  (RegistrationService.register_student (RegistrationService.init rules) data w).1
  = (RegistrationService.register_student (RegistrationService.init rules) data w').1.
Proof.
  intros Hrules. destruct (student_name data) as [nama|] eqn:Hnama.
  - rewrite !(register_student_unfold _ _ _ _ Hnama).
    pose proof (service_loop_stateless data rules
                  (w ++ [MemulaiValidasi nama]) (w' ++ [MemulaiValidasi nama])
                  Hrules) as H.
    destruct (RegistrationService.loop _ _ (w ++ _)) as [[[b|]|e] w1],
             (RegistrationService.loop _ _ (w' ++ _)) as [[[b'|]|e'] w1'];
      simpl in H |- *; congruence.
  - unfold student_name in Hnama.
    unfold RegistrationService.register_student.
    destruct (Data.mahasiswa data) as [m|]; simpl in Hnama |- *; [|done].
    unfold_m. simpl. by rewrite Hnama.
Qed.

(** ** Totality of the concrete rules *)

Lemma prereq_loop_total lulus ks w :
  Forall has_name ks ->
  ∃ r w', PrerequisiteRule.loop lulus ks w = (Ok r, w').
Proof.
  induction 1 as [|k ks [nama Hk] _ IH]; simpl; [by eexists _, _|].
  case (_ && _); [|done]. rewrite Hk. by eexists _, _.
Qed.

Lemma concrete_rules_total data w :
  Forall (fun k => has_credit_units k ∧ has_name k) (selections data) ->
  (∃ b w', SksLimitRule.validate data w = (Ok b, w')) ∧
  (∃ b w', PrerequisiteRule.validate data w = (Ok b, w')) ∧
  (∃ b w', JadwalBentrokRule.validate data w = (Ok b, w')).
Proof.
  intros Hks. apply Forall_and in Hks as [Hsks Hnama]. repeat split.
  - rewrite (SksLimitRule_run _ _ Hsks). case (_ >? _); by eexists _, _.
  - rewrite PrerequisiteRule_unfold.
    destruct (prereq_loop_total (list_to_set (completed_courses data)) _ w Hnama)
      as ([b|] & w' & ->); by eexists _, _.
  - rewrite JadwalBentrokRule_unfold.
    destruct (jadwal_loop_never_raises ∅ (selections data) w)
      as ([b|] & w' & ->); by eexists _, _.
Qed.

(** ** Verdicts of the loops *)

Lemma jadwal_loop_returns_false seen ks w b w' :
  JadwalBentrokRule.loop seen ks w = (Ok (Some b), w') -> b = false.
Proof.
  revert seen. induction ks as [|k ks IH]; intros seen; simpl.
  - unfold ret. discriminate.
  - case_bool_decide; [|apply IH]. unfold_m. simpl. by intros [= <- _].
Qed.

Lemma JadwalBentrokRule_verdict data w :
  (JadwalBentrokRule.validate data w).1
  = Ok (bool_decide (NoDup (time_slots (selections data)))).
Proof.
  rewrite JadwalBentrokRule_unfold. case_bool_decide as Hnd.
  - rewrite jadwal_loop_pass; [done..|]. intros s _. apply not_elem_of_empty.
  - destruct (jadwal_loop_never_raises ∅ (selections data) w)
      as ([b|] & w' & Hrun); rewrite Hrun; simpl.
    + by rewrite (jadwal_loop_returns_false _ _ _ _ _ Hrun).
    + by apply jadwal_loop_completes in Hrun as [? _].
Qed.

Lemma prereq_loop_returns_false lulus ks w b w' :
  PrerequisiteRule.loop lulus ks w = (Ok (Some b), w') -> b = false.
Proof.
  induction ks as [|k ks IH]; simpl.
  - unfold ret. discriminate.
  - case (_ && _); [|apply IH].
    destruct (Kursus.nama k); unfold_m; simpl; [by intros [= <- _] | discriminate].
Qed.

Lemma PrerequisiteRule_passes data w :
  (PrerequisiteRule.validate data w).1 = Ok true
  <-> Forall (prerequisite_met (completed_courses data)) (selections data).
Proof.
  rewrite PrerequisiteRule_unfold. split.
  - destruct (PrerequisiteRule.loop _ _ w) as [[[b|]|e] w'] eqn:Hrun; simpl.
    + by rewrite (prereq_loop_returns_false _ _ _ _ _ Hrun).
    + intros _. by apply prereq_loop_completes in Hrun.
    + discriminate.
  - intros Hks. by rewrite prereq_loop_pass.
Qed.

(** ** Properties of the rule pipeline *)

(** C1: with a student name in the request, [register_student] returns
    [True] exactly when every injected rule, run in list order, returns
    [True]; for rules whose verdict does not depend on the state this is
    the plain conjunction of the rules' verdicts. The evaluation
    short-circuits: when the rules before [rule] pass and [rule] returns
    [False], the call returns [False] with the output [rule] left plus the
    failure line naming [rule], whatever rules [post] come after it, so
    none of them is invoked. *)
Theorem register_student_all_rules rules data nama w :
  student_name data = Some nama ->
  let run := RegistrationService.register_student (RegistrationService.init rules) data in
  let w0 := w ++ [MemulaiValidasi nama] in
  ((run w).1 = Ok true <-> ∃ w', all_pass data rules w0 w') ∧
  (Forall stateless rules ->
   ((run w).1 = Ok true
    <-> Forall (fun rule => ∀ w1, (validate rule data w1).1 = Ok true) rules)) ∧
  (∀ pre rule post w1 w2,
     rules = pre ++ rule :: post ->
     all_pass data pre w0 w1 ->
     validate rule data w1 = (Ok false, w2) ->
     run w = (Ok false, w2 ++ [RegistrasiGagal (class_name rule)])).
Proof.
  intros Hnama run w0.
  assert (Hiff : (run w).1 = Ok true <-> ∃ w', all_pass data rules w0 w').
  { unfold run. rewrite (register_student_unfold _ _ _ _ Hnama). fold w0. split.
    - destruct (RegistrationService.loop rules data w0) as [[[b|]|e] w'] eqn:Hrun;
        simpl; [|by exists w'; apply service_loop_completes|discriminate].
      rewrite (service_loop_returns_false _ _ _ _ _ Hrun). discriminate.
    - intros (w' & Hpass). by rewrite (service_loop_pass _ _ _ _ Hpass). }
  split; [exact Hiff|]. split.
  - intros Hrules. rewrite Hiff. by apply all_pass_stateless.
  - intros pre rule post w1 w2 -> Hpre Hrule. unfold run.
    rewrite (register_student_unfold _ _ _ _ Hnama). fold w0.
    by rewrite (service_loop_first_false _ _ _ post _ _ _ Hpre Hrule).
Qed.

Lemma register_student_all_rules_witness :
  student_name data_prasyarat_belum_lulus = Some "Citra" ∧
  RegistrationService.register_student registration_service
    data_prasyarat_belum_lulus []
  = (Ok false,
     [MemulaiValidasi "Citra"; LolosValidasiSks;
      GagalValidasiPrasyarat "STRUKTUR DATA" (Some "ALGORITMA");
      RegistrasiGagal "PrerequisiteRule"]).
Proof.
  split; [reflexivity|].
  refine (proj2 (proj2 (register_student_all_rules aturan_lengkap
            data_prasyarat_belum_lulus "Citra" [] eq_refl))
          [SksLimitRule.new] PrerequisiteRule.new [JadwalBentrokRule.new]
          [MemulaiValidasi "Citra"; LolosValidasiSks]
          [MemulaiValidasi "Citra"; LolosValidasiSks;
           GagalValidasiPrasyarat "STRUKTUR DATA" (Some "ALGORITMA")]
          eq_refl _ _).
  - eapply all_pass_cons; [vm_compute; reflexivity | apply all_pass_nil].
  - vm_compute. reflexivity.
Defined.

(** C2, as the code has it: on a request whose selected courses all carry
    their credit units, [SksLimitRule] returns [False] exactly when their
    sum strictly exceeds the student's limit and [True] otherwise, the
    limit being 24 when the request gives none; a sum equal to the limit
    passes, and so does an empty selection when the limit is not
    negative. *)
Theorem SksLimitRule_validate_spec data w :
  Forall has_credit_units (selections data) ->
  let total := total_credit_units (selections data) in
  let limit := max_credit_units data in
  let verdict := (SksLimitRule.validate data w).1 in
  (verdict = Ok false <-> total > limit) ∧
  (verdict = Ok true <-> total <= limit) ∧
  (Data.mahasiswa data ≫= Mahasiswa.max_sks = None -> limit = 24) ∧
  (total = limit -> verdict = Ok true) ∧
  (selections data = [] -> 0 <= limit -> verdict = Ok true).
Proof.
  intros Hks total limit verdict.
  assert (Hv : verdict = Ok (negb (total >? limit))).
  { unfold verdict. rewrite (SksLimitRule_run _ _ Hks).
    fold total limit. by case (_ >? _). }
  rewrite Hv. repeat split.
  - intros [= H%negb_false_iff]. lia.
  - intros H. f_equal. apply negb_false_iff. lia.
  - intros [= H%negb_true_iff]. lia.
  - intros H. f_equal. apply negb_true_iff. lia.
  - unfold limit, max_credit_units.
    destruct (Data.mahasiswa data) as [m|]; simpl; [|done]. by intros ->.
  - intros H. f_equal. apply negb_true_iff. lia.
  - intros Hnil H. f_equal. apply negb_true_iff.
    unfold total. rewrite Hnil. simpl. lia.
Qed.

Lemma SksLimitRule_validate_spec_witness :
  Forall has_credit_units (selections data_mahasiswa_gagal_sks) ∧
  (SksLimitRule.validate data_mahasiswa_gagal_sks []).1 = Ok false ∧
  (SksLimitRule.validate data_mahasiswa_valid []).1 = Ok true.
Proof.
  assert (H1 : Forall has_credit_units (selections data_mahasiswa_gagal_sks))
    by (repeat constructor; by eexists).
  assert (H2 : Forall has_credit_units (selections data_mahasiswa_valid))
    by (repeat constructor; by eexists).
  split; [exact H1|]. split.
  - apply (proj1 (SksLimitRule_validate_spec data_mahasiswa_gagal_sks [] H1)).
    vm_compute. reflexivity.
  - apply (proj1 (proj2 (SksLimitRule_validate_spec data_mahasiswa_valid [] H2))).
    vm_compute. discriminate.
Defined.

(** C2, as stated for every request, fails twice. A selected course
    without ["sks"] makes the rule raise [KeyError], so it returns neither
    [True] nor [False]; and with the limit -1 the empty selection, of sum
    0, is rejected. *)
Lemma SksLimitRule_every_request_counterexample :
  ((SksLimitRule.validate data_tanpa_sks []).1 = Raise (KeyError "sks") ∧
   ∀ b, (SksLimitRule.validate data_tanpa_sks []).1 ≠ Ok b) ∧
  (selections data_batas_negatif = [] ∧
   total_credit_units (selections data_batas_negatif) = 0 ∧
   (SksLimitRule.validate data_batas_negatif []).1 = Ok false).
Proof.
  split.
  - assert (H : (SksLimitRule.validate data_tanpa_sks []).1 = Raise (KeyError "sks"))
      by (vm_compute; reflexivity).
    split; [exact H|]. intros b. rewrite H. discriminate.
  - repeat split; vm_compute; reflexivity.
Qed.

(** C3, as the code has it: [PrerequisiteRule] returns [True] exactly when
    every selected course whose prerequisite is set, that is neither null
    nor the empty string, has it among the completed courses. At the first
    course in selection order with a set and unmet prerequisite it returns
    [False] and reports that course (the course having a name), whatever
    courses follow; a selection of courses without prerequisite passes. *)
Theorem PrerequisiteRule_validate_spec data w :
  let completed := completed_courses data in
  ((PrerequisiteRule.validate data w).1 = Ok true
   <-> Forall (prerequisite_met completed) (selections data)) ∧
  (∀ pre k post nama,
     selections data = pre ++ k :: post ->
     Forall (prerequisite_met completed) pre ->
     ¬ prerequisite_met completed k ->
     Kursus.nama k = Some nama ->
     PrerequisiteRule.validate data w
     = (Ok false, w ++ [GagalValidasiPrasyarat nama (Kursus.prasyarat k)])) ∧
  (Forall (fun k => Kursus.prasyarat k = None) (selections data) ->
   (PrerequisiteRule.validate data w).1 = Ok true).
Proof.
  intros completed. split; [apply PrerequisiteRule_passes|]. split.
  - intros pre k post nama Hsel Hpre Hk Hnama.
    rewrite PrerequisiteRule_unfold, Hsel.
    rewrite (prereq_loop_first_unmet _ _ _ _ _ Hpre Hk). by rewrite Hnama.
  - intros Hnone. apply PrerequisiteRule_passes.
    eapply Forall_impl; [exact Hnone|]. intros k Hk.
    unfold prerequisite_met. by rewrite Hk.
Qed.

Lemma PrerequisiteRule_validate_spec_witness :
  PrerequisiteRule.validate data_prasyarat_belum_lulus []
  = (Ok false, [GagalValidasiPrasyarat "STRUKTUR DATA" (Some "ALGORITMA")]).
Proof.
  refine (proj1 (proj2 (PrerequisiteRule_validate_spec data_prasyarat_belum_lulus []))
            [buat_kursus "JARINGAN KOMPUTER" 4 None (Some "SELASA 08:00")]
            (buat_kursus "STRUKTUR DATA" 4 (Some "ALGORITMA") (Some "SENIN 10:00"))
            [buat_kursus "BASIS DATA" 4 (Some "STRUKTUR DATA") (Some "RABU 13:00")]
            "STRUKTUR DATA" eq_refl _ _ eq_refl).
  - repeat constructor.
  - unfold prerequisite_met. simpl. intros [H | H]; [discriminate|].
    revert H. apply (bool_decide_eq_false_1 _). vm_compute. reflexivity.
Defined.

(** C3, as stated, fails: with the empty string as the prerequisite of the
    only selected course and a history that does not contain the empty
    string, the rule returns [True] although a non-null prerequisite is
    missing from the completed courses. *)
Lemma PrerequisiteRule_nonnull_counterexample :
  ¬ ((PrerequisiteRule.validate data_prasyarat_kosong []).1 = Ok true
     <-> Forall (nonnull_prerequisite_met (completed_courses data_prasyarat_kosong))
           (selections data_prasyarat_kosong)).
Proof.
  intros [Hforall _]. specialize (Hforall eq_refl).
  apply Forall_cons in Hforall as [Hk _].
  revert Hk. unfold nonnull_prerequisite_met. simpl.
  apply (bool_decide_eq_false_1 _). vm_compute. reflexivity.
Qed.

(** C4: [JadwalBentrokRule] returns [True] exactly when the time slots of
    the selected courses are pairwise distinct as values. At the first
    course in selection order whose slot equals the slot of some earlier
    course, adjacent or not, it returns [False] and reports that slot,
    whatever courses follow. *)
Theorem JadwalBentrokRule_validate_spec data w :
  ((JadwalBentrokRule.validate data w).1 = Ok true
   <-> NoDup (time_slots (selections data))) ∧
  ((JadwalBentrokRule.validate data w).1 = Ok false
   <-> ¬ NoDup (time_slots (selections data))) ∧
  (∀ pre k post,
     selections data = pre ++ k :: post ->
     NoDup (time_slots pre) ->
     Kursus.jadwal k ∈ time_slots pre ->
     JadwalBentrokRule.validate data w
     = (Ok false, w ++ [GagalValidasiJadwal (Kursus.jadwal k)])).
Proof.
  rewrite JadwalBentrokRule_verdict. repeat split.
  - intros [= H]. by apply bool_decide_eq_true in H.
  - intros H. by rewrite bool_decide_eq_true_2.
  - intros [= H]. by apply bool_decide_eq_false in H.
  - intros H. by rewrite bool_decide_eq_false_2.
  - intros pre k post Hsel Hpre Hk. rewrite JadwalBentrokRule_unfold, Hsel.
    rewrite (jadwal_loop_first_duplicate ∅ pre k post w Hpre); [done| |by right].
    intros s _. apply not_elem_of_empty.
Qed.

Lemma JadwalBentrokRule_validate_spec_witness :
  JadwalBentrokRule.validate data_jadwal_bentrok []
  = (Ok false, [GagalValidasiJadwal (Some "SENIN 10:00")]).
Proof.
  refine (proj2 (proj2 (JadwalBentrokRule_validate_spec data_jadwal_bentrok []))
            [buat_kursus "STRUKTUR DATA" 4 (Some "ALGORITMA") (Some "SENIN 10:00");
             buat_kursus "JARINGAN KOMPUTER" 4 None (Some "SELASA 08:00")]
            (buat_kursus "BASIS DATA" 4 None (Some "SENIN 10:00"))
            [] eq_refl _ _).
  - apply (bool_decide_eq_true_1 _). vm_compute. reflexivity.
  - apply (bool_decide_eq_true_1 _). vm_compute. reflexivity.
Defined.

(** C5: on the request of the failing demonstration (limit 8, three
    courses of 4 credit units) [register_student] returns [False] after
    the header, the credit failure for 12 against 8 and the failure line of
    [SksLimitRule], and nothing else; this holds for the injected list of
    the demonstration and for every list that starts with [SksLimitRule],
    so [PrerequisiteRule] and [JadwalBentrokRule] are never invoked. *)
Theorem register_student_gagal_sks w :
  let expected :=
    (Ok false, w ++ [MemulaiValidasi "Andi"; GagalValidasiSks 12 8;
                     RegistrasiGagal "SksLimitRule"]) in
  RegistrationService.register_student registration_service
    data_mahasiswa_gagal_sks w = expected ∧
  ∀ rest,
    RegistrationService.register_student
      (RegistrationService.init (SksLimitRule.new :: rest))
      data_mahasiswa_gagal_sks w = expected.
Proof.
  intros expected.
  assert (H : ∀ rest,
    RegistrationService.register_student
      (RegistrationService.init (SksLimitRule.new :: rest))
      data_mahasiswa_gagal_sks w = expected).
  { intros rest. rewrite (register_student_unfold _ _ "Andi"); [|done].
    rewrite service_loop_cons. simpl validate.
    rewrite SksLimitRule_run by (repeat constructor; by eexists).
    simpl. unfold expected. by rewrite <- !app_assoc. }
  split; [apply H | exact H].
Qed.

(** C6: on a well-formed request none of the three rules raises: each
    returns a boolean. *)
Theorem concrete_rules_never_raise data w :
  well_formed data ->
  (∃ b w', SksLimitRule.validate data w = (Ok b, w')) ∧
  (∃ b w', PrerequisiteRule.validate data w = (Ok b, w')) ∧
  (∃ b w', JadwalBentrokRule.validate data w = (Ok b, w')).
Proof. intros (_ & _ & Hks). by apply concrete_rules_total. Qed.

Lemma concrete_rules_never_raise_witness :
  well_formed data_mahasiswa_valid ∧
  ∃ b w', PrerequisiteRule.validate data_mahasiswa_valid [] = (Ok b, w').
Proof.
  assert (H : well_formed data_mahasiswa_valid).
  { apply (bool_decide_eq_true_1 _). vm_compute. reflexivity. }
  split; [exact H|].
  exact (proj1 (proj2 (concrete_rules_never_raise data_mahasiswa_valid [] H))).
Defined.

(** C7: for rules whose verdict does not depend on the state they are
    called in, a second call of [register_student] on the same request,
    made in the state the first call left, gives the result of the first
    call. *)
Theorem register_student_deterministic rules data w :
  Forall stateless rules ->
  let service := RegistrationService.init rules in
  let first := RegistrationService.register_student service data w in
  let second := RegistrationService.register_student service data first.2 in
  second.1 = first.1.
Proof. intros Hrules service first second. by apply register_student_stateless. Qed.

Lemma register_student_deterministic_witness :
  Forall stateless aturan_lengkap ∧
  (RegistrationService.register_student registration_service data_mahasiswa_valid
     (RegistrationService.register_student registration_service
        data_mahasiswa_valid []).2).1
  = (RegistrationService.register_student registration_service
       data_mahasiswa_valid []).1.
Proof.
  split; [exact concrete_rules_stateless|].
  exact (register_student_deterministic aturan_lengkap data_mahasiswa_valid []
           concrete_rules_stateless).
Defined.

(** C8: a service built on the empty rule list accepts every request that
    has a student name. *)
Theorem register_student_no_rules data nama w :
  student_name data = Some nama ->
  RegistrationService.register_student (RegistrationService.init []) data w
  = (Ok true, w ++ [MemulaiValidasi nama; RegistrasiBerhasil]).
Proof.
  intros Hnama. rewrite (register_student_unfold _ _ _ _ Hnama). simpl.
  by rewrite <- app_assoc.
Qed.

Lemma register_student_no_rules_witness :
  student_name data_mahasiswa_valid = Some "Budi" ∧
  RegistrationService.register_student (RegistrationService.init [])
    data_mahasiswa_valid []
  = (Ok true, [MemulaiValidasi "Budi"; RegistrasiBerhasil]).
Proof.
  split; [reflexivity|].
  exact (register_student_no_rules data_mahasiswa_valid "Budi" [] eq_refl).
Defined.

(** C9: when the request has no ["mahasiswa"] entry, or that entry has no
    ["nama"], [register_student] raises [KeyError] for the missing key
    before anything is printed and whatever the injected rules are, so no
    rule is evaluated; yet on such a request, the selected courses having
    their credit units and names, each of the three rules returns a
    boolean. *)
Theorem register_student_requires_name rules data w :
  student_name data = None ->
  RegistrationService.register_student (RegistrationService.init rules) data w
  = (Raise (KeyError (if Data.mahasiswa data is Some _ then "nama" else "mahasiswa")), w) ∧
  (Forall (fun k => has_credit_units k ∧ has_name k) (selections data) ->
   (∃ b w', SksLimitRule.validate data w = (Ok b, w')) ∧
   (∃ b w', PrerequisiteRule.validate data w = (Ok b, w')) ∧
   (∃ b w', JadwalBentrokRule.validate data w = (Ok b, w'))).
Proof.
  intros Hnama. split; [|apply concrete_rules_total].
  unfold student_name in Hnama. unfold RegistrationService.register_student.
  destruct (Data.mahasiswa data) as [m|]; simpl in Hnama |- *; [|done].
  unfold_m. simpl. by rewrite Hnama.
Qed.

Lemma register_student_requires_name_witness :
  student_name data_tanpa_mahasiswa = None ∧
  RegistrationService.register_student registration_service data_tanpa_mahasiswa []
  = (Raise (KeyError "mahasiswa"), []) ∧
  ∃ b w', SksLimitRule.validate data_tanpa_mahasiswa [] = (Ok b, w').
Proof.
  pose proof (register_student_requires_name aturan_lengkap data_tanpa_mahasiswa
                [] eq_refl) as [Hraise Hrules].
  split; [reflexivity|]. split; [exact Hraise|].
  apply Hrules. repeat constructor; by eexists.
Defined.

(** C10: a selection with two courses that have no time slot is rejected
    by [JadwalBentrokRule]: both read as the same absent value. *)
Theorem JadwalBentrokRule_missing_slots data w l1 k1 l2 k2 l3 :
  selections data = l1 ++ k1 :: l2 ++ k2 :: l3 ->
  Kursus.jadwal k1 = None ->
  Kursus.jadwal k2 = None ->
  (JadwalBentrokRule.validate data w).1 = Ok false.
Proof.
  intros Hsel H1 H2. rewrite JadwalBentrokRule_verdict. f_equal.
  apply bool_decide_eq_false_2. rewrite Hsel. unfold time_slots.
  rewrite fmap_app, fmap_cons, fmap_app, fmap_cons, H1, H2.
  intros [_ [_ Hnd]]%NoDup_app. apply NoDup_cons in Hnd as [Hnotin _].
  apply Hnotin. apply elem_of_app. right. left.
Qed.

Lemma JadwalBentrokRule_missing_slots_witness :
  (JadwalBentrokRule.validate data_tanpa_jadwal []).1 = Ok false.
Proof.
  exact (JadwalBentrokRule_missing_slots data_tanpa_jadwal []
           [] (buat_kursus "STRUKTUR DATA" 4 None None)
           [buat_kursus "JARINGAN KOMPUTER" 4 None (Some "SELASA 08:00")]
           (buat_kursus "BASIS DATA" 4 None None) []
           eq_refl eq_refl eq_refl).
Defined.


(** ** Further lemmas on the rules *)

Lemma sum_sks_missing acc ks w :
  ¬ Forall has_credit_units ks ->
  SksLimitRule.sum_sks acc ks w = (Raise (KeyError "sks"), w).
Proof.
  revert acc. induction ks as [|k ks IH]; intros acc Hks; simpl.
  - by destruct Hks.
  - destruct (Kursus.sks k) as [v|] eqn:Hk; unfold_m; simpl; [|done].
    apply IH. intros Hrest. apply Hks. constructor; [by exists v | done].
Qed.

Lemma SksLimitRule_missing data w :
  ¬ Forall has_credit_units (selections data) ->
  SksLimitRule.validate data w = (Raise (KeyError "sks"), w).
Proof.
  intros Hks. unfold SksLimitRule.validate.
  by rewrite (bind_raise _ _ _ _ _ (sum_sks_missing 0 _ w Hks)).
Qed.

Lemma lacking_credit_units ks k :
  k ∈ ks -> Kursus.sks k = None -> ¬ Forall has_credit_units ks.
Proof.
  intros Hin Hk Hall. rewrite Forall_forall in Hall.
  destruct (Hall k Hin) as [v Hv]. congruence.
Qed.

Lemma SksLimitRule_passes data w :
  (SksLimitRule.validate data w).1 = Ok true
  <-> Forall has_credit_units (selections data)
      ∧ total_credit_units (selections data) <= max_credit_units data.
Proof.
  destruct (decide (Forall (fun k => is_Some (Kursus.sks k)) (selections data)))
    as [Hks | Hks].
  - rewrite (SksLimitRule_run _ _ Hks).
    destruct (_ >? _) eqn:Hcmp; simpl; split.
    + discriminate.
    + intros [_ H]. lia.
    + intros _. split; [done | lia].
    + done.
  - rewrite (SksLimitRule_missing _ _ Hks). simpl. split; [discriminate|].
    by intros [H _].
Qed.

Lemma prereq_loop_inversion completed ks w r w' :
  PrerequisiteRule.loop (list_to_set completed) ks w = (r, w') ->
  match r with
  | Ok None => w' = w
  | Ok (Some b) =>
      b = false ∧
      ∃ k nama, k ∈ ks ∧ ¬ prerequisite_met completed k ∧
        Kursus.nama k = Some nama ∧
        w' = w ++ [GagalValidasiPrasyarat nama (Kursus.prasyarat k)]
  | Raise e =>
      e = KeyError "nama" ∧ w' = w ∧
      ∃ k, k ∈ ks ∧ ¬ prerequisite_met completed k ∧ Kursus.nama k = None
  end.
Proof.
  induction ks as [|k ks IH]; simpl.
  - unfold ret. by intros [= <- <-].
  - destruct (truthy _ && _) eqn:Htest.
    + assert (Hk : ¬ prerequisite_met completed k).
      { rewrite <- unmet_test. by rewrite Htest. }
      destruct (Kursus.nama k) as [nama|] eqn:Hnama; unfold_m; simpl;
        intros [= <- <-].
      * split; [done|]. exists k, nama. repeat split; [left | done..].
      * repeat split. exists k. repeat split; [left | done..].
    + intros Hrun. specialize (IH Hrun).
      destruct r as [[b|]|e]; [| done |].
      * destruct IH as (-> & k' & nama & Hin & ?). split; [done|].
        exists k', nama. split; [by right | done].
      * destruct IH as (-> & -> & k' & Hin & ?). repeat split.
        exists k'. split; [by right | done].
Qed.

Lemma jadwal_loop_inversion seen ks w r w' :
  JadwalBentrokRule.loop seen ks w = (r, w') ->
  match r with
  | Ok None => w' = w
  | Ok (Some b) =>
      b = false ∧ ∃ k, k ∈ ks ∧ w' = w ++ [GagalValidasiJadwal (Kursus.jadwal k)]
  | Raise e => False
  end.
Proof.
  revert seen. induction ks as [|k ks IH]; intros seen; simpl.
  - unfold ret. by intros [= <- <-].
  - case_bool_decide.
    + unfold_m. simpl. intros [= <- <-]. split; [done|]. exists k. split; [left|done].
    + intros Hrun. specialize (IH _ Hrun).
      destruct r as [[b|]|e]; [| done..].
      destruct IH as (-> & k' & Hin & ->). split; [done|].
      exists k'. split; [by right | done].
Qed.

(** ** Further lemmas on the service *)

Lemma register_student_no_name rules data w :
  student_name data = None ->
  RegistrationService.register_student (RegistrationService.init rules) data w
  = (Raise (KeyError (if Data.mahasiswa data is Some _ then "nama" else "mahasiswa")), w).
Proof.
  unfold student_name, RegistrationService.register_student.
  destruct (Data.mahasiswa data) as [m|]; simpl; [|done].
  intros Hnama. unfold_m. simpl. by rewrite Hnama.
Qed.

Lemma register_student_passes rules data nama w :
  student_name data = Some nama ->
  (RegistrationService.register_student (RegistrationService.init rules) data w).1
    = Ok true
  <-> ∃ w', all_pass data rules (w ++ [MemulaiValidasi nama]) w'.
Proof.
  intros Hnama. rewrite (register_student_unfold _ _ _ _ Hnama). split.
  - destruct (RegistrationService.loop rules data _) as [[[b|]|e] w'] eqn:Hrun;
      simpl; [|by exists w'; apply service_loop_completes|discriminate].
    rewrite (service_loop_returns_false _ _ _ _ _ Hrun). discriminate.
  - intros (w' & Hpass). by rewrite (service_loop_pass _ _ _ _ Hpass).
Qed.

Lemma all_pass_app data l1 l2 w w' :
  all_pass data (l1 ++ l2) w w'
  <-> ∃ w1, all_pass data l1 w w1 ∧ all_pass data l2 w1 w'.
Proof.
  revert w. induction l1 as [|rule l1 IH]; intros w; simpl.
  - split.
    + intros H. exists w. split; [constructor | done].
    + intros (w1 & H1 & H2). by inversion H1; subst.
  - split.
    + intros H. inversion H as [|? ? ? wa ? Hrule Hrest]; subst.
      apply IH in Hrest as (w1 & H1 & H2). exists w1. split; [|done].
      by econstructor.
    + intros (w1 & H1 & H2). inversion H1 as [|? ? ? wa ? Hrule Hrest]; subst.
      econstructor; [done|]. apply IH. by exists w1.
Qed.

Lemma service_loop_first_raise data pre rule post w w1 e w2 :
  all_pass data pre w w1 ->
  validate rule data w1 = (Raise e, w2) ->
  RegistrationService.loop (pre ++ rule :: post) data w = (Raise e, w2).
Proof.
  intros Hpre Hrule. induction Hpre as [|r rest w w' w1 Hr _ IH]; simpl app.
  - by rewrite service_loop_cons, Hrule.
  - rewrite service_loop_cons, Hr. by apply IH.
Qed.

Lemma service_loop_inversion data rules w r w' :
  RegistrationService.loop rules data w = (r, w') ->
  match r with
  | Ok None => all_pass data rules w w'
  | Ok (Some b) =>
      b = false ∧
      ∃ pre rule post w1 w2,
        rules = pre ++ rule :: post ∧ all_pass data pre w w1 ∧
        validate rule data w1 = (Ok false, w2) ∧
        w' = w2 ++ [RegistrasiGagal (class_name rule)]
  | Raise e =>
      ∃ pre rule post w1,
        rules = pre ++ rule :: post ∧ all_pass data pre w w1 ∧
        validate rule data w1 = (Raise e, w')
  end.
Proof.
  revert w. induction rules as [|rule rest IH]; intros w.
  - simpl. unfold ret. intros [= <- <-]. constructor.
  - rewrite service_loop_cons.
    destruct (validate rule data w) as [[[|]|e] w1] eqn:Hrule.
    + intros Hrun. specialize (IH _ Hrun). destruct r as [[b|]|e].
      * destruct IH as (-> & pre & r' & post & wa & wb & -> & Hpre & Hr & ->).
        split; [done|]. exists (rule :: pre), r', post, wa, wb.
        repeat split; [|done]. by econstructor.
      * by econstructor.
      * destruct IH as (pre & r' & post & wa & -> & Hpre & Hr).
        exists (rule :: pre), r', post, wa. repeat split; [|done].
        by econstructor.
    + intros [= <- <-]. split; [done|]. exists [], rule, rest, w, w1.
      repeat split; [constructor | done].
    + intros [= <- <-]. exists [], rule, rest, w. repeat split; [constructor | done].
Qed.

(** ** Further properties: errors and output of the rules *)

(** X1: [SksLimitRule] raises [KeyError] on ["sks"], printing nothing, as
    soon as some selected course lacks the key, whatever the credit totals
    are; and that is the only way it raises. *)
Theorem SksLimitRule_key_error data w :
  ((∃ k, k ∈ selections data ∧ Kursus.sks k = None) ->
   SksLimitRule.validate data w = (Raise (KeyError "sks"), w)) ∧
  (∀ e w', SksLimitRule.validate data w = (Raise e, w') ->
     e = KeyError "sks" ∧ w' = w ∧ ∃ k, k ∈ selections data ∧ Kursus.sks k = None).
Proof.
  split.
  - intros (k & Hin & Hk). apply SksLimitRule_missing.
    by apply (lacking_credit_units _ k).
  - intros e w' Hrun.
    destruct (decide (Forall (fun k => is_Some (Kursus.sks k)) (selections data)))
      as [Hks | Hks].
    + rewrite (SksLimitRule_run _ _ Hks) in Hrun.
      by destruct (_ >? _).
    + rewrite (SksLimitRule_missing _ _ Hks) in Hrun.
      injection Hrun as <- <-. repeat split.
      apply not_Forall_Exists in Hks; [|apply _].
      apply Exists_exists in Hks as (k & Hin & Hk). exists k. split; [done|].
      simpl in Hk. by apply eq_None_not_Some.
Qed.

Lemma SksLimitRule_key_error_witness :
  SksLimitRule.validate data_tanpa_sks [] = (Raise (KeyError "sks"), []).
Proof.
  apply (proj1 (SksLimitRule_key_error data_tanpa_sks [])).
  exists {| Kursus.nama := Some "BASIS DATA"; Kursus.sks := None;
            Kursus.prasyarat := None; Kursus.jadwal := Some "RABU 13:00" |}.
  split; [|reflexivity]. right. left.
Defined.

(** X2: [PrerequisiteRule] raises [KeyError] on ["nama"], printing nothing,
    when the first selected course with an unmet prerequisite has no name;
    and that is the only way it raises. *)
Theorem PrerequisiteRule_key_error data w :
  (∀ pre k post,
     selections data = pre ++ k :: post ->
     Forall (prerequisite_met (completed_courses data)) pre ->
     ¬ prerequisite_met (completed_courses data) k ->
     Kursus.nama k = None ->
     PrerequisiteRule.validate data w = (Raise (KeyError "nama"), w)) ∧
  (∀ e w', PrerequisiteRule.validate data w = (Raise e, w') ->
     e = KeyError "nama" ∧ w' = w ∧
     ∃ k, k ∈ selections data ∧ ¬ prerequisite_met (completed_courses data) k
          ∧ Kursus.nama k = None).
Proof.
  split.
  - intros pre k post Hsel Hpre Hk Hnama.
    rewrite PrerequisiteRule_unfold, Hsel.
    rewrite (prereq_loop_first_unmet _ _ _ _ _ Hpre Hk). by rewrite Hnama.
  - intros e w'. rewrite PrerequisiteRule_unfold.
    destruct (PrerequisiteRule.loop _ _ w) as [[[b|]|e'] w1] eqn:Hrun;
      [discriminate.. |].
    intros [= <- <-]. by apply prereq_loop_inversion in Hrun.
Qed.

Lemma PrerequisiteRule_key_error_witness :
  PrerequisiteRule.validate data_tanpa_nama [] = (Raise (KeyError "nama"), []).
Proof.
  refine (proj1 (PrerequisiteRule_key_error data_tanpa_nama [])
            [buat_kursus "JARINGAN KOMPUTER" 4 None (Some "SELASA 08:00")]
            {| Kursus.nama := None; Kursus.sks := Some 4;
               Kursus.prasyarat := Some "DASPRO";
               Kursus.jadwal := Some "RABU 13:00" |}
            [] eq_refl _ _ eq_refl).
  - repeat constructor.
  - unfold prerequisite_met. simpl. intros [H | H]; [discriminate|].
    by apply elem_of_nil in H.
Defined.

(** X3: a concrete rule that returns prints exactly one line: its pass
    line when it returns [True]; when it returns [False], the credit
    failure with the total and the limit, the prerequisite failure naming
    a selected course whose prerequisite is unmet, or the schedule failure
    with the slot of a selected course. *)
Theorem concrete_rules_output data w b w' :
  (SksLimitRule.validate data w = (Ok b, w') ->
   w' = w ++ [if b then LolosValidasiSks
              else GagalValidasiSks (total_credit_units (selections data))
                                    (max_credit_units data)]) ∧
  (PrerequisiteRule.validate data w = (Ok b, w') ->
   if b then w' = w ++ [LolosValidasiPrasyarat]
   else ∃ k nama, k ∈ selections data ∧
          ¬ prerequisite_met (completed_courses data) k ∧
          Kursus.nama k = Some nama ∧
          w' = w ++ [GagalValidasiPrasyarat nama (Kursus.prasyarat k)]) ∧
  (JadwalBentrokRule.validate data w = (Ok b, w') ->
   if b then w' = w ++ [LolosValidasiJadwal]
   else ∃ k, k ∈ selections data ∧
          w' = w ++ [GagalValidasiJadwal (Kursus.jadwal k)]).
Proof.
  repeat split.
  - destruct (decide (Forall (fun k => is_Some (Kursus.sks k)) (selections data)))
      as [Hks | Hks].
    + rewrite (SksLimitRule_run _ _ Hks). by destruct (_ >? _); intros [= <- <-].
    + by rewrite (SksLimitRule_missing _ _ Hks).
  - rewrite PrerequisiteRule_unfold.
    destruct (PrerequisiteRule.loop _ _ w) as [[[b'|]|e] w1] eqn:Hrun;
      [| |discriminate]; intros [= <- <-]; apply prereq_loop_inversion in Hrun.
    + by destruct Hrun as (-> & ?).
    + by subst.
  - rewrite JadwalBentrokRule_unfold.
    destruct (JadwalBentrokRule.loop _ _ w) as [[[b'|]|e] w1] eqn:Hrun;
      [| |discriminate]; intros [= <- <-]; apply jadwal_loop_inversion in Hrun.
    + by destruct Hrun as (-> & ?).
    + by subst.
Qed.

Lemma concrete_rules_output_witness :
  ∃ k nama, k ∈ selections data_prasyarat_belum_lulus ∧
    ¬ prerequisite_met (completed_courses data_prasyarat_belum_lulus) k ∧
    Kursus.nama k = Some nama ∧
    [GagalValidasiPrasyarat "STRUKTUR DATA" (Some "ALGORITMA")]
    = [] ++ [GagalValidasiPrasyarat nama (Kursus.prasyarat k)].
Proof.
  exact (proj1 (proj2 (concrete_rules_output data_prasyarat_belum_lulus [] false
           [GagalValidasiPrasyarat "STRUKTUR DATA" (Some "ALGORITMA")])) eq_refl).
Defined.

(** ** Further properties: the service *)

Lemma registration_service_run_accept data nama w :
  student_name data = Some nama ->
  Forall has_credit_units (selections data) ->
  total_credit_units (selections data) <= max_credit_units data ->
  Forall (prerequisite_met (completed_courses data)) (selections data) ->
  NoDup (time_slots (selections data)) ->
  RegistrationService.register_student registration_service data w
  = (Ok true, w ++ [MemulaiValidasi nama; LolosValidasiSks; LolosValidasiPrasyarat;
                    LolosValidasiJadwal; RegistrasiBerhasil]).
Proof.
  intros Hnama Hsks Htotal Hprereq Hslots.
  unfold registration_service, aturan_lengkap.
  rewrite (register_student_unfold _ _ _ _ Hnama).
  rewrite service_loop_cons. simpl validate.
  rewrite (SksLimitRule_run _ _ Hsks).
  replace (_ >? _) with false by lia.
  rewrite service_loop_cons. simpl validate.
  rewrite PrerequisiteRule_unfold, (prereq_loop_pass _ _ _ Hprereq).
  rewrite service_loop_cons. simpl validate.
  rewrite JadwalBentrokRule_unfold, (jadwal_loop_pass ∅ _ _ Hslots)
    by (intros s _; apply not_elem_of_empty).
  simpl. by rewrite <- !app_assoc.
Qed.

Lemma registration_service_passes data nama w :
  student_name data = Some nama ->
  (RegistrationService.register_student registration_service data w).1 = Ok true
  <-> Forall has_credit_units (selections data)
      ∧ total_credit_units (selections data) <= max_credit_units data
      ∧ Forall (prerequisite_met (completed_courses data)) (selections data)
      ∧ NoDup (time_slots (selections data)).
Proof.
  intros Hnama. split.
  - intros Hrun. apply (register_student_passes _ _ _ _ Hnama) in Hrun.
    apply (all_pass_stateless _ _ _ concrete_rules_stateless) in Hrun.
    apply Forall_cons in Hrun as [Hsks Hrun].
    apply Forall_cons in Hrun as [Hprereq Hrun].
    apply Forall_cons in Hrun as [Hslots _].
    specialize (Hsks w). specialize (Hprereq w). specialize (Hslots w).
    simpl in Hsks, Hprereq, Hslots.
    apply SksLimitRule_passes in Hsks as [? ?].
    apply PrerequisiteRule_passes in Hprereq.
    rewrite JadwalBentrokRule_verdict in Hslots.
    injection Hslots as Hslots. by apply bool_decide_eq_true in Hslots.
  - intros (Hsks & Htotal & Hprereq & Hslots).
    by rewrite (registration_service_run_accept _ _ _ Hnama).
Qed.

(** X4: with the rule list of the demonstration and a student name in the
    request, [register_student] returns [True] exactly when every selected
    course carries its credit units, their sum does not exceed the limit,
    every set prerequisite is completed and the time slots are pairwise
    distinct; it then prints the header, the three pass lines in rule
    order and the success line. *)
Theorem registration_service_accepts data nama w :
  student_name data = Some nama ->
  let run := RegistrationService.register_student registration_service data w in
  (run.1 = Ok true
   <-> Forall has_credit_units (selections data)
       ∧ total_credit_units (selections data) <= max_credit_units data
       ∧ Forall (prerequisite_met (completed_courses data)) (selections data)
       ∧ NoDup (time_slots (selections data))) ∧
  (run.1 = Ok true ->
   run.2 = w ++ [MemulaiValidasi nama; LolosValidasiSks; LolosValidasiPrasyarat;
                 LolosValidasiJadwal; RegistrasiBerhasil]).
Proof.
  intros Hnama run. split; [exact (registration_service_passes _ _ w Hnama)|].
  intros Hrun. apply (registration_service_passes _ _ _ Hnama) in Hrun
    as (Hsks & Htotal & Hprereq & Hslots).
  unfold run. by rewrite (registration_service_run_accept _ _ _ Hnama).
Qed.

Lemma registration_service_accepts_witness :
  student_name data_mahasiswa_valid = Some "Budi" ∧
  (RegistrationService.register_student registration_service
     data_mahasiswa_valid []).1 = Ok true.
Proof.
  split; [reflexivity|].
  apply (proj1 (registration_service_accepts data_mahasiswa_valid "Budi" [] eq_refl)).
  split; [repeat constructor; by eexists|].
  split; [vm_compute; discriminate|].
  split.
  - constructor; [right; right; left|]. constructor; [exact I | constructor].
  - apply (bool_decide_eq_true_1 _). vm_compute. reflexivity.
Defined.

(** X5: for rules whose verdict does not depend on the state, whether
    [register_student] accepts a request does not depend on the order in
    which the rules were injected. *)
Theorem register_student_rule_order rules rules' data w :
  Forall stateless rules ->
  rules ≡ₚ rules' ->
  (RegistrationService.register_student (RegistrationService.init rules) data w).1
    = Ok true
  <-> (RegistrationService.register_student (RegistrationService.init rules') data w).1
    = Ok true.
Proof.
  intros Hrules Hperm.
  assert (Hrules' : Forall stateless rules') by by rewrite <- Hperm.
  destruct (student_name data) as [nama|] eqn:Hnama.
  - rewrite !(register_student_passes _ _ _ _ Hnama).
    rewrite (all_pass_stateless _ _ _ Hrules), (all_pass_stateless _ _ _ Hrules').
    by rewrite Hperm.
  - by rewrite !(register_student_no_name _ _ _ Hnama).
Qed.

Lemma register_student_rule_order_witness :
  (RegistrationService.register_student
     (RegistrationService.init
        [JadwalBentrokRule.new; SksLimitRule.new; PrerequisiteRule.new])
     data_mahasiswa_valid []).1 = Ok true.
Proof.
  apply (register_student_rule_order aturan_lengkap
           [JadwalBentrokRule.new; SksLimitRule.new; PrerequisiteRule.new]
           data_mahasiswa_valid [] concrete_rules_stateless).
  - unfold aturan_lengkap. symmetry.
    apply (Permutation_cons_append [SksLimitRule.new; PrerequisiteRule.new]
             JadwalBentrokRule.new).
  - vm_compute. reflexivity.
Defined.

(** X6: injecting further rules after the given ones never turns a
    rejected request into an accepted one. *)
Theorem register_student_more_rules rules extra data w :
  (RegistrationService.register_student
     (RegistrationService.init (rules ++ extra)) data w).1 = Ok true ->
  (RegistrationService.register_student
     (RegistrationService.init rules) data w).1 = Ok true.
Proof.
  destruct (student_name data) as [nama|] eqn:Hnama.
  - rewrite !(register_student_passes _ _ _ _ Hnama).
    intros (w' & Hpass). apply all_pass_app in Hpass as (w1 & H1 & _).
    by exists w1.
  - by rewrite !(register_student_no_name _ _ _ Hnama).
Qed.

Lemma register_student_more_rules_witness :
  (RegistrationService.register_student
     (RegistrationService.init [SksLimitRule.new]) data_mahasiswa_valid []).1
  = Ok true.
Proof.
  apply (register_student_more_rules [SksLimitRule.new]
           [PrerequisiteRule.new; JadwalBentrokRule.new] data_mahasiswa_valid []).
  vm_compute. reflexivity.
Defined.

(** X7: an exception raised by a rule, the rules before it having passed,
    leaves [register_student] as it is, with the output the rule left: no
    verdict line is printed and no later rule runs. *)
Theorem register_student_rule_raises pre rule post data nama w w1 e w2 :
  student_name data = Some nama ->
  all_pass data pre (w ++ [MemulaiValidasi nama]) w1 ->
  validate rule data w1 = (Raise e, w2) ->
  RegistrationService.register_student
    (RegistrationService.init (pre ++ rule :: post)) data w = (Raise e, w2).
Proof.
  intros Hnama Hpre Hrule. rewrite (register_student_unfold _ _ _ _ Hnama).
  by rewrite (service_loop_first_raise _ _ _ post _ _ _ _ Hpre Hrule).
Qed.

Lemma register_student_rule_raises_witness :
  RegistrationService.register_student registration_service data_tanpa_nama []
  = (Raise (KeyError "nama"), [MemulaiValidasi "Hadi"; LolosValidasiSks]).
Proof.
  refine (register_student_rule_raises [SksLimitRule.new] PrerequisiteRule.new
            [JadwalBentrokRule.new] data_tanpa_nama "Hadi" []
            [MemulaiValidasi "Hadi"; LolosValidasiSks] (KeyError "nama")
            [MemulaiValidasi "Hadi"; LolosValidasiSks] eq_refl _ _).
  - eapply all_pass_cons; [vm_compute; reflexivity | apply all_pass_nil].
  - vm_compute. reflexivity.
Defined.

(** X8: whenever [register_student] returns, the request has a student
    name; a [True] comes after every rule passed in order and ends the
    output with the success line; a [False] comes from one injected rule
    that returned [False] after all rules before it passed, and the last
    line printed names the class of that rule. *)
Theorem register_student_returns rules data w b w' :
  RegistrationService.register_student (RegistrationService.init rules) data w
    = (Ok b, w') ->
  ∃ nama, student_name data = Some nama ∧
    if b then
      ∃ w1, all_pass data rules (w ++ [MemulaiValidasi nama]) w1 ∧
            w' = w1 ++ [RegistrasiBerhasil]
    else
      ∃ pre rule post w1 w2,
        rules = pre ++ rule :: post ∧
        all_pass data pre (w ++ [MemulaiValidasi nama]) w1 ∧
        validate rule data w1 = (Ok false, w2) ∧
        w' = w2 ++ [RegistrasiGagal (class_name rule)].
Proof.
  destruct (student_name data) as [nama|] eqn:Hnama.
  - rewrite (register_student_unfold _ _ _ _ Hnama).
    destruct (RegistrationService.loop rules data _) as [[[b'|]|e] w1] eqn:Hrun;
      [| |discriminate]; intros [= <- <-]; exists nama; (split; [done|]);
      apply service_loop_inversion in Hrun.
    + by destruct Hrun as (-> & ?).
    + by exists w1.
  - by rewrite (register_student_no_name _ _ _ Hnama).
Qed.

Lemma register_student_returns_witness :
  ∃ nama, student_name data_mahasiswa_gagal_sks = Some nama ∧
    ∃ pre rule post w1 w2,
      aturan_lengkap = pre ++ rule :: post ∧
      all_pass data_mahasiswa_gagal_sks pre ([] ++ [MemulaiValidasi nama]) w1 ∧
      validate rule data_mahasiswa_gagal_sks w1 = (Ok false, w2) ∧
      [MemulaiValidasi "Andi"; GagalValidasiSks 12 8; RegistrasiGagal "SksLimitRule"]
      = w2 ++ [RegistrasiGagal (class_name rule)].
Proof.
  exact (register_student_returns aturan_lengkap data_mahasiswa_gagal_sks [] false
           [MemulaiValidasi "Andi"; GagalValidasiSks 12 8;
            RegistrasiGagal "SksLimitRule"] eq_refl).
Defined.

(** X9: when [SksLimitRule] is the first injected rule, a request with a
    student name and a selected course without ["sks"] makes
    [register_student] raise [KeyError] on ["sks"] right after the header,
    whatever the other rules and the rest of the request are. *)
Theorem register_student_missing_sks rest data nama k w :
  student_name data = Some nama ->
  k ∈ selections data ->
  Kursus.sks k = None ->
  RegistrationService.register_student
    (RegistrationService.init (SksLimitRule.new :: rest)) data w
  = (Raise (KeyError "sks"), w ++ [MemulaiValidasi nama]).
Proof.
  intros Hnama Hin Hk. rewrite (register_student_unfold _ _ _ _ Hnama).
  rewrite service_loop_cons. simpl validate.
  by rewrite (SksLimitRule_missing _ _ (lacking_credit_units _ _ Hin Hk)).
Qed.

Lemma register_student_missing_sks_witness :
  RegistrationService.register_student registration_service data_tanpa_sks []
  = (Raise (KeyError "sks"), [MemulaiValidasi "Gita"]).
Proof.
  refine (register_student_missing_sks [PrerequisiteRule.new; JadwalBentrokRule.new]
            data_tanpa_sks "Gita"
            {| Kursus.nama := Some "BASIS DATA"; Kursus.sks := None;
               Kursus.prasyarat := None; Kursus.jadwal := Some "RABU 13:00" |}
            [] eq_refl _ eq_refl).
  right. left.
Defined.

(** ** Further properties: changing the request *)

Lemma total_credit_units_sublist ks' ks :
  ks' `sublist_of` ks ->
  Forall credit_units_nonneg ks ->
  total_credit_units ks' <= total_credit_units ks.
Proof.
  induction 1 as [|k l1 l2 _ IH|k l1 l2 _ IH]; simpl.
  - done.
  - intros [_ Hrest]%Forall_cons. specialize (IH Hrest). lia.
  - intros [(v & Hv & Hpos) Hrest]%Forall_cons. specialize (IH Hrest).
    rewrite Hv. simpl. lia.
Qed.

Lemma total_credit_units_perm ks ks' :
  ks ≡ₚ ks' -> total_credit_units ks = total_credit_units ks'.
Proof. induction 1; simpl; lia. Qed.

Lemma Forall_sublist {A} (P : A -> Prop) (l' l : list A) :
  l' `sublist_of` l -> Forall P l -> Forall P l'.
Proof.
  rewrite !Forall_forall. intros Hsub Hl x Hx.
  apply Hl. by apply (elem_of_sublist l').
Qed.

Lemma SksLimitRule_sublist data ks' w :
  ks' `sublist_of` selections data ->
  Forall credit_units_nonneg (selections data) ->
  (SksLimitRule.validate data w).1 = Ok true ->
  (SksLimitRule.validate (with_selection data ks') w).1 = Ok true.
Proof.
  intros Hsub Hpos. rewrite !SksLimitRule_passes.
  change (selections (with_selection data ks')) with ks'.
  change (max_credit_units (with_selection data ks')) with (max_credit_units data).
  intros [Hks Htotal]. split; [by apply (Forall_sublist _ _ _ Hsub)|].
  pose proof (total_credit_units_sublist _ _ Hsub Hpos). lia.
Qed.

Lemma PrerequisiteRule_sublist data ks' w :
  ks' `sublist_of` selections data ->
  (PrerequisiteRule.validate data w).1 = Ok true ->
  (PrerequisiteRule.validate (with_selection data ks') w).1 = Ok true.
Proof.
  intros Hsub. rewrite !PrerequisiteRule_passes.
  change (selections (with_selection data ks')) with ks'.
  change (completed_courses (with_selection data ks')) with (completed_courses data).
  by apply Forall_sublist.
Qed.

Lemma JadwalBentrokRule_sublist data ks' w :
  ks' `sublist_of` selections data ->
  (JadwalBentrokRule.validate data w).1 = Ok true ->
  (JadwalBentrokRule.validate (with_selection data ks') w).1 = Ok true.
Proof.
  intros Hsub. rewrite !JadwalBentrokRule_verdict.
  change (selections (with_selection data ks')) with ks'.
  intros [= Hnd%bool_decide_eq_true]. f_equal. apply bool_decide_eq_true_2.
  apply (sublist_NoDup _ (time_slots (selections data))); [done|].
  unfold time_slots. by apply fmap_sublist.
Qed.

(** X10: dropping courses from a selection that a concrete rule passes
    leaves a selection the rule still passes; for [SksLimitRule] this
    needs the credit units of the original selection not to be negative. *)
Theorem concrete_rules_sublist data ks' w :
  ks' `sublist_of` selections data ->
  (Forall credit_units_nonneg (selections data) ->
   (SksLimitRule.validate data w).1 = Ok true ->
   (SksLimitRule.validate (with_selection data ks') w).1 = Ok true) ∧
  ((PrerequisiteRule.validate data w).1 = Ok true ->
   (PrerequisiteRule.validate (with_selection data ks') w).1 = Ok true) ∧
  ((JadwalBentrokRule.validate data w).1 = Ok true ->
   (JadwalBentrokRule.validate (with_selection data ks') w).1 = Ok true).
Proof.
  intros Hsub. split; [|split].
  - by apply SksLimitRule_sublist.
  - by apply PrerequisiteRule_sublist.
  - by apply JadwalBentrokRule_sublist.
Qed.

Lemma concrete_rules_sublist_witness :
  (JadwalBentrokRule.validate
     (with_selection data_mahasiswa_valid
        [buat_kursus "JARINGAN KOMPUTER" 4 None (Some "SELASA 08:00")]) []).1
  = Ok true.
Proof.
  refine (proj2 (proj2 (concrete_rules_sublist data_mahasiswa_valid
            [buat_kursus "JARINGAN KOMPUTER" 4 None (Some "SELASA 08:00")] [] _)) _).
  - apply sublist_cons. apply sublist_skip. apply sublist_nil.
  - vm_compute. reflexivity.
Defined.

(** X11: with the rule list of the demonstration, a request that is
    accepted stays accepted when courses are dropped from its selection,
    the credit units of the selection not being negative. *)
Theorem registration_service_sublist data ks' w :
  ks' `sublist_of` selections data ->
  Forall credit_units_nonneg (selections data) ->
  (RegistrationService.register_student registration_service data w).1 = Ok true ->
  (RegistrationService.register_student registration_service
     (with_selection data ks') w).1 = Ok true.
Proof.
  intros Hsub Hpos. destruct (student_name data) as [nama|] eqn:Hnama.
  - rewrite (registration_service_passes data nama w Hnama).
    rewrite (registration_service_passes (with_selection data ks') nama w Hnama).
    change (selections (with_selection data ks')) with ks'.
    change (max_credit_units (with_selection data ks')) with (max_credit_units data).
    change (completed_courses (with_selection data ks')) with (completed_courses data).
    intros (Hsks & Htotal & Hprereq & Hslots). repeat split.
    + by apply (Forall_sublist _ _ _ Hsub).
    + pose proof (total_credit_units_sublist _ _ Hsub Hpos). lia.
    + by apply (Forall_sublist _ _ _ Hsub).
    + apply (sublist_NoDup _ (time_slots (selections data))); [done|].
      unfold time_slots. by apply fmap_sublist.
  - unfold registration_service. by rewrite (register_student_no_name _ _ _ Hnama).
Qed.

Lemma registration_service_sublist_witness :
  (RegistrationService.register_student registration_service
     (with_selection data_mahasiswa_valid
        [buat_kursus "JARINGAN KOMPUTER" 4 None (Some "SELASA 08:00")]) []).1
  = Ok true.
Proof.
  refine (registration_service_sublist data_mahasiswa_valid
            [buat_kursus "JARINGAN KOMPUTER" 4 None (Some "SELASA 08:00")] [] _ _ _).
  - apply sublist_cons. apply sublist_skip. apply sublist_nil.
  - repeat constructor; (eexists; split; [reflexivity | lia]).
  - vm_compute. reflexivity.
Defined.

(** X12: [PrerequisiteRule] uses the history of completed courses only as
    a set: two requests with the same selection whose histories have the
    same elements, in any order and with any repetitions, get the same
    result and the same output. *)
Theorem PrerequisiteRule_history_as_set data1 data2 w :
  selections data1 = selections data2 ->
  (∀ p, p ∈ completed_courses data1 <-> p ∈ completed_courses data2) ->
  PrerequisiteRule.validate data1 w = PrerequisiteRule.validate data2 w.
Proof.
  intros Hsel Hset. rewrite !PrerequisiteRule_unfold, Hsel.
  replace (list_to_set (completed_courses data1) : gset string)
    with (list_to_set (completed_courses data2) : gset string); [done|].
  apply set_eq. intros p. rewrite !elem_of_list_to_set. by rewrite Hset.
Qed.

Lemma PrerequisiteRule_history_as_set_witness :
  PrerequisiteRule.validate data_mahasiswa_valid []
  = PrerequisiteRule.validate
      {| Data.mahasiswa := Some
           (buat_mahasiswa "Budi" 24 ["ALGORITMA"; "DASPRO"; "ALGORITMA"]);
         Data.kursus_terpilih := Data.kursus_terpilih data_mahasiswa_valid |} [].
Proof.
  apply PrerequisiteRule_history_as_set; [reflexivity|].
  intros p. unfold completed_courses. simpl.
  rewrite !elem_of_cons, elem_of_nil. tauto.
Defined.

(** X13: completing more courses never breaks a request: if
    [PrerequisiteRule] passes a selection with one history, it passes the
    same selection with every history that contains it. *)
Theorem PrerequisiteRule_history_grows data1 data2 w :
  selections data1 = selections data2 ->
  (∀ p, p ∈ completed_courses data1 -> p ∈ completed_courses data2) ->
  (PrerequisiteRule.validate data1 w).1 = Ok true ->
  (PrerequisiteRule.validate data2 w).1 = Ok true.
Proof.
  intros Hsel Hsub. rewrite !PrerequisiteRule_passes, Hsel.
  intros Hall. eapply Forall_impl; [exact Hall|].
  intros k. unfold prerequisite_met.
  destruct (Kursus.prasyarat k) as [p|]; [|done].
  intros [Hp | Hp]; [by left | right; by apply Hsub].
Qed.

Lemma PrerequisiteRule_history_grows_witness :
  (PrerequisiteRule.validate
     {| Data.mahasiswa := Some
          (buat_mahasiswa "Budi" 24 ["DASPRO"; "ALGORITMA"; "BASIS DATA"]);
        Data.kursus_terpilih := Data.kursus_terpilih data_mahasiswa_valid |} []).1
  = Ok true.
Proof.
  refine (PrerequisiteRule_history_grows data_mahasiswa_valid _ [] eq_refl _ _).
  - intros p. unfold completed_courses. simpl.
    rewrite !elem_of_cons, elem_of_nil. tauto.
  - vm_compute. reflexivity.
Defined.

(** X14: the order of the selected courses does not change the verdicts:
    on a reordered selection [SksLimitRule] gives the same result and
    output, [JadwalBentrokRule] the same result, and [PrerequisiteRule]
    passes the one exactly when it passes the other. *)
Theorem concrete_rules_selection_order data ks w :
  ks ≡ₚ selections data ->
  SksLimitRule.validate (with_selection data ks) w = SksLimitRule.validate data w ∧
  ((PrerequisiteRule.validate (with_selection data ks) w).1 = Ok true
   <-> (PrerequisiteRule.validate data w).1 = Ok true) ∧
  (JadwalBentrokRule.validate (with_selection data ks) w).1
  = (JadwalBentrokRule.validate data w).1.
Proof.
  intros Hperm. split; [|split].
  - destruct (decide (Forall (fun k => is_Some (Kursus.sks k)) (selections data)))
      as [Hks | Hks].
    + assert (Hks' : Forall has_credit_units ks) by by rewrite Hperm.
      rewrite (SksLimitRule_run data _ Hks).
      rewrite (SksLimitRule_run (with_selection data ks) _ Hks').
      change (selections (with_selection data ks)) with ks.
      change (max_credit_units (with_selection data ks)) with (max_credit_units data).
      by rewrite (total_credit_units_perm _ _ Hperm).
    + rewrite (SksLimitRule_missing data _ Hks).
      apply SksLimitRule_missing.
      change (selections (with_selection data ks)) with ks.
      intros Hks'. apply Hks. by rewrite <- Hperm.
  - rewrite !PrerequisiteRule_passes.
    change (selections (with_selection data ks)) with ks.
    change (completed_courses (with_selection data ks)) with (completed_courses data).
    by rewrite Hperm.
  - rewrite !JadwalBentrokRule_verdict.
    change (selections (with_selection data ks)) with ks.
    f_equal. apply bool_decide_ext. unfold time_slots. by rewrite Hperm.
Qed.

Lemma concrete_rules_selection_order_witness :
  SksLimitRule.validate
    (with_selection data_mahasiswa_valid
       [buat_kursus "JARINGAN KOMPUTER" 4 None (Some "SELASA 08:00");
        buat_kursus "STRUKTUR DATA" 4 (Some "ALGORITMA") (Some "SENIN 10:00")]) []
  = SksLimitRule.validate data_mahasiswa_valid [].
Proof.
  refine (proj1 (concrete_rules_selection_order data_mahasiswa_valid
            [buat_kursus "JARINGAN KOMPUTER" 4 None (Some "SELASA 08:00");
             buat_kursus "STRUKTUR DATA" 4 (Some "ALGORITMA") (Some "SENIN 10:00")]
            [] _)).
  apply perm_swap.
Defined.
